(** * BrainWorks patient-intake form: a shallow embedding of
    [src/components/detection.jsx] (the live [BrainWorksApp] component,
    lines 2751-2914; everything above line 2594 of that file is commented
    out) and the properties of its handlers.

    JavaScript Numbers are IEEE-754 binary64 values: they are modelled by
    Rocq's primitive [float], whose operations are the same correctly
    rounded binary64 operations and are specified by [SpecFloat].  React
    state is a record, the form record is a finite map from property names
    to JavaScript values (the handler writes it through a computed key),
    and the handlers are written in a small state monad over the browser
    world (React state, clock, pending timers, alert log, object URLs). *)

From Stdlib Require Import ZArith Lia Floats String Ascii List DecimalString Sorted.
From stdpp Require Import base option gmap strings list.

Local Open Scope string_scope.
Local Open Scope Z_scope.

(* ================================================================== *)
(** * Numbers                                                          *)
(* ================================================================== *)

(** [Math.random()] returns a Number [r] with [0 <= r < 1]. *)
Definition Math_random_range (r : float) : bool :=
  ((0 <=? r) && (r <? 1))%float.

(** [Math.random() * 20 + 80], line 2793. *)
Definition confidence_value (r : float) : float := (r * 20 + 80)%float.

(** [Math.random() > 0.5], line 2790. *)
Definition detected_of (r : float) : bool := (0.5 <? r)%float.

(** ** [Number.prototype.toFixed(2)]

    ECMAScript: for a finite [x] below [10^21], "let [n] be an integer for
    which [n / 10^f - x] is as close to zero as possible; if there are two
    such [n], pick the larger".  For [x = m * 2^e] and [f = 2] that integer
    is [floor (100 * x + 1/2)], computed exactly on integers. *)
Definition round_hundredths (m : positive) (e : Z) : Z :=
  if 0 <=? e then Z.pos m * 2 ^ e * 100
  else (Z.pos m * 200 + 2 ^ (- e)) / 2 ^ (1 - e).

(** The decimal digits of a natural number ("0" for zero). *)
Definition decimal (n : Z) : string :=
  NilZero.string_of_uint (N.to_uint (Z.to_N n)).

Fixpoint zeros (k : nat) : string :=
  match k with O => "" | S k' => String "0" (zeros k') end.

(** The digit string [m] of [n] with the decimal point placed before its
    last two digits; a string of at most two digits is first padded on the
    left with zeros to three. *)
Definition point2 (m : string) : string :=
  let m' := zeros (3 - String.length m) ++ m in
  let k := String.length m' in
  substring 0 (k - 2) m' ++ "." ++ substring (k - 2) 2 m'.

(** [x.toFixed(2)].  A magnitude of [10^21] or more is printed by
    [Number::toString], which is not modelled: the result is [None]. *)
Definition toFixed2 (x : float) : option string :=
  match Prim2SF x with
  | S754_nan => Some "NaN"
  | S754_infinity s => Some (if s then "-Infinity" else "Infinity")
  | S754_zero _ => Some "0.00"
  | S754_finite s m e =>
      if (0 <=? e) && (10 ^ 21 <=? Z.pos m * 2 ^ e) then None
      else Some ((if s then "-" else "") ++ point2 (decimal (round_hundredths m e)))
  end.

(** The template literal [`${(...).toFixed(2)}%`], line 2793. *)
Definition confidence_string (r : float) : option string :=
  s ← toFixed2 (confidence_value r); Some (s ++ "%").

(** What a confidence string denotes: [percent_hundredths "93.27%"] is
    [Some 9327], the percentage in hundredths. *)
Definition digit_of (c : ascii) : option Z :=
  let n := Z.of_N (N_of_ascii c) in
  if (48 <=? n) && (n <=? 57) then Some (n - 48) else None.

Fixpoint read_percent (acc : Z) (s : string) : option Z :=
  match s with
  | EmptyString => None
  | String c rest =>
      if Ascii.eqb c "." then
        match rest with
        | String d1 (String d2 (String p EmptyString)) =>
            if Ascii.eqb p "%" then
              a ← digit_of d1; b ← digit_of d2; Some (acc * 100 + a * 10 + b)
            else None
        | _ => None
        end
      else d ← digit_of c; read_percent (acc * 10 + d) rest
  end.

Definition percent_hundredths (s : string) : option Z :=
  match s with
  | String c _ => if Ascii.eqb c "." then None else read_percent 0 s
  | EmptyString => None
  end.

(* ================================================================== *)
(** * JavaScript values and the component state                        *)
(* ================================================================== *)

(** A [File] of a file input: its [name] and its MIME [type]. *)
Record File := { file_name : string; file_type : string }.

(** The values a property of [formData] can hold. *)
Inductive jsval :=
| VNull
| VBool (b : bool)
| VStr (s : string)
| VFile (f : File).

(** Truthiness of a property read ([!x] is its negation); a property that
    is missing reads [undefined]. *)
Definition truthy (v : option jsval) : bool :=
  match v with
  | Some (VBool b) => b
  | Some (VStr s) => negb (String.eqb s "")
  | Some (VFile _) => true
  | Some VNull | None => false
  end.

(** The object [simulateAnalysis] resolves to, lines 2791-2795. *)
Record AnalysisResult := {
  status : string;
  confidence : string;
  detected : bool;
}.

(** The five [useState] cells of [BrainWorksApp], lines 2752-2766. *)
Record State := {
  formData : gmap string jsval;
  mriPreview : option string;
  isAnalyzing : bool;
  showResults : bool;
  analysisResult : option AnalysisResult;
}.

Definition initialFormData : gmap string jsval :=
  <["firstName" := VStr ""]> (<["lastName" := VStr ""]> (<["age" := VStr ""]>
  (<["phone" := VStr ""]> (<["email" := VStr ""]> (<["symptoms" := VStr ""]>
  (<["hasMRI" := VBool false]> (<["mriFile" := VNull]> ∅))))))).

Definition initialState : State := {|
  formData := initialFormData;
  mriPreview := None;
  isAnalyzing := false;
  showResults := false;
  analysisResult := None;
|}.

(** The browser around the component: the clock in milliseconds, the due
    times of the pending [setTimeout] callbacks in the order they were
    scheduled, the messages shown by [alert] so far, oldest first, and the
    number of object URLs created. *)
Record World := {
  ui : State;
  now : Z;
  timers : list Z;
  alerts : list string;
  objectURLs : nat;
}.

Definition initialWorld : World := {|
  ui := initialState; now := 0; timers := []; alerts := []; objectURLs := 0;
|}.

(** ** Handlers run in a state monad over the world *)

Definition M (A : Type) : Type := World -> A * World.

#[global] Instance M_ret : MRet M := fun A (a : A) w => (a, w).
#[global] Instance M_bind : MBind M :=
  fun A B (f : A -> M B) (m : M A) w => let '(a, w') := m w in f a w'.

Definition run {A : Type} (m : M A) (w : World) : World := snd (m w).

Definition getState : M State := fun w => (ui w, w).

Definition setState (f : State -> State) : M unit := fun w =>
  (tt, {| ui := f (ui w); now := now w; timers := timers w;
          alerts := alerts w; objectURLs := objectURLs w |}).

Definition setFormData (f : gmap string jsval -> gmap string jsval) : M unit :=
  setState (fun st => {| formData := f (formData st); mriPreview := mriPreview st;
    isAnalyzing := isAnalyzing st; showResults := showResults st;
    analysisResult := analysisResult st |}).

Definition setMriPreview (v : option string) : M unit :=
  setState (fun st => {| formData := formData st; mriPreview := v;
    isAnalyzing := isAnalyzing st; showResults := showResults st;
    analysisResult := analysisResult st |}).

Definition setIsAnalyzing (b : bool) : M unit :=
  setState (fun st => {| formData := formData st; mriPreview := mriPreview st;
    isAnalyzing := b; showResults := showResults st;
    analysisResult := analysisResult st |}).

Definition setShowResults (b : bool) : M unit :=
  setState (fun st => {| formData := formData st; mriPreview := mriPreview st;
    isAnalyzing := isAnalyzing st; showResults := b;
    analysisResult := analysisResult st |}).

Definition setAnalysisResult (r : option AnalysisResult) : M unit :=
  setState (fun st => {| formData := formData st; mriPreview := mriPreview st;
    isAnalyzing := isAnalyzing st; showResults := showResults st;
    analysisResult := r |}).

(** [alert(msg)]: a blocking dialog; the message is logged. *)
Definition alert (msg : string) : M unit := fun w =>
  (tt, {| ui := ui w; now := now w; timers := timers w;
          alerts := alerts w ++ [msg]; objectURLs := objectURLs w |}).

(** [setTimeout(callback, delay)]: the callback becomes due [delay]
    milliseconds from now. *)
Definition setTimeout (delay : Z) : M unit := fun w =>
  (tt, {| ui := ui w; now := now w; timers := timers w ++ [now w + delay];
          alerts := alerts w; objectURLs := objectURLs w |}).

(** [URL.createObjectURL(file)]: a fresh URL at every call. *)
Definition createObjectURL (file : File) : M string := fun w =>
  ("blob:" ++ decimal (Z.of_nat (objectURLs w)),
   {| ui := ui w; now := now w; timers := timers w;
      alerts := alerts w; objectURLs := S (objectURLs w) |}).

(** ** The handlers of [BrainWorksApp] *)

(** [e.target] of a change event. *)
Record Target := { name : string; value : string; type : string; checked : bool }.

(** Lines 2768-2774. *)
Definition handleInputChange (e : Target) : M unit :=
  setFormData (fun prev =>
    <[name e := if String.eqb (type e) "checkbox" then VBool (checked e)
                else VStr (value e)]> prev).

(** Lines 2776-2785; [files] is [e.target.files]. *)
Definition handleFileChange (files : list File) : M unit :=
  match files !! 0%nat with
  | None => mret tt
  | Some file =>
      setFormData (fun prev => <["mriFile" := VFile file]> prev) ;;
      if String.prefix "image/" (file_type file)
      then url ← createObjectURL file; setMriPreview (Some url)
      else mret tt
  end.

(** Lines 2787-2797.  [simulateAnalysis] schedules its callback 3000 ms
    ahead and returns a promise; the callback draws [Math.random()] twice,
    first for the verdict and then for the confidence, and resolves the
    promise with [simulateAnalysis_resolve r1 r2]. *)
Definition simulateAnalysis : M unit := setTimeout 3000.

Definition simulateAnalysis_resolve (r1 r2 : float) : option AnalysisResult :=
  let detected := detected_of r1 in
  c ← confidence_string r2;
  Some {| status := if detected then "Tumor Detected" else "No Tumor Detected";
          confidence := c;
          detected := detected |}.

(** Lines 2799-2815, up to the [await]. *)
Definition handleSubmit : M unit :=
  st ← getState;
  let formData := formData st in
  if negb (truthy (formData !! "firstName"))
     || negb (truthy (formData !! "lastName"))
     || negb (truthy (formData !! "email"))
  then alert "Please fill all required fields"
  else if truthy (formData !! "hasMRI") && negb (truthy (formData !! "mriFile"))
  then alert "Please upload MRI image"
  else setIsAnalyzing true ;; setShowResults false ;; simulateAnalysis.

(** Lines 2815-2819, after the [await], with the promise's result. *)
Definition handleSubmit_resume (result : AnalysisResult) : M unit :=
  setAnalysisResult (Some result) ;; setIsAnalyzing false ;; setShowResults true.

(** ** What is rendered, lines 2822-2913 *)

(** The inputs of the form that call [handleInputChange], by [name] and
    the [type] their element reports. *)
Definition formInputs : list (string * string) :=
  [("firstName", "text"); ("lastName", "text"); ("age", "number");
   ("phone", "text"); ("email", "email"); ("symptoms", "textarea");
   ("hasMRI", "checkbox")].

(** The file input is rendered inside [formData.hasMRI && (...)]. *)
Definition fileInputRendered (st : State) : bool := truthy (formData st !! "hasMRI").

(** The submit button, lines 2892-2894: its label changes while an
    analysis is pending; it carries no [disabled] attribute. *)
Definition submitLabel (st : State) : string :=
  if isAnalyzing st then "Analyzing..." else "Submit".

Record Button := { label : string; onClick : option (M unit) }.

(** Lines 2905-2908: two buttons outside the form, without [onClick]. *)
Definition resultButtons : list Button :=
  [ {| label := "Preview Result"; onClick := None |};
    {| label := "Download PDF"; onClick := None |} ].

Record ResultsSection := {
  verdictText : string;
  verdictStyle : string;
  confidenceText : string;
  buttons : list Button;
}.

(** Lines 2897-2910: [showResults && analysisResult && (...)]. *)
Definition resultsSection (st : State) : option ResultsSection :=
  if showResults st then
    r ← analysisResult st;
    Some {| verdictText := status r;
            verdictStyle := if detected r then "detected" else "normal";
            confidenceText := "Confidence: " ++ confidence r;
            buttons := resultButtons |}
  else None.

(** A click runs the button's handler, if it has one. *)
Definition click (b : Button) : M unit :=
  match onClick b with Some h => h | None => mret tt end.

(** ** The event loop *)

Inductive Event :=
| Change (e : Target)            (* a form input changes *)
| FileChange (files : list File) (* the file input changes *)
| Submit                         (* the form is submitted *)
| Click (l : string)             (* a button of the results section *)
| TimerFires (r1 r2 : float)     (* the oldest timeout runs, drawing r1, r2 *)
| Elapse (d : Z).                (* time passes *)

(** One turn of the event loop; [None] when the page cannot produce the
    event in this world.  All timeouts have the same delay, so they run in
    the order they were scheduled, never before they are due.  [Submit]
    is the submit event reaching [handleSubmit]; the browser's own
    validation of the [number] and [email] inputs, which can keep the
    event from being dispatched, is not modelled, so the worlds reachable
    here include those of the page. *)
Definition step (ev : Event) (w : World) : option World :=
  match ev with
  | Change e =>
      if bool_decide ((name e, type e) ∈ formInputs)
      then Some (run (handleInputChange e) w) else None
  | FileChange files =>
      if fileInputRendered (ui w) then Some (run (handleFileChange files) w) else None
  | Submit => Some (run handleSubmit w)
  | Click l =>
      sec ← resultsSection (ui w);
      b ← List.find (fun b => String.eqb (label b) l) (buttons sec);
      Some (run (click b) w)
  | TimerFires r1 r2 =>
      match timers w with
      | [] => None
      | due :: rest =>
          if Math_random_range r1 && Math_random_range r2 then
            result ← simulateAnalysis_resolve r1 r2;
            Some (run (handleSubmit_resume result)
                    {| ui := ui w; now := Z.max (now w) due; timers := rest;
                       alerts := alerts w; objectURLs := objectURLs w |})
          else None
      end
  | Elapse d =>
      if 0 <=? d
      then Some {| ui := ui w; now := now w + d; timers := timers w;
                   alerts := alerts w; objectURLs := objectURLs w |}
      else None
  end.

Fixpoint steps (evs : list Event) (w : World) : option World :=
  match evs with
  | [] => Some w
  | ev :: evs' => w' ← step ev w; steps evs' w'
  end.

Inductive reachable : World -> Prop :=
| reachable_init : reachable initialWorld
| reachable_step (ev : Event) (w w' : World) :
    reachable w -> step ev w = Some w' -> reachable w'.

(* ================================================================== *)
(** * Outcomes, example worlds and invariants used in the statements   *)
(* ================================================================== *)

(** A submission rejected with [msg]: the dialog is shown and nothing else
    changes, neither the React state nor the pending timers. *)
Definition rejectedWith (msg : string) (w w' : World) : Prop :=
  ui w' = ui w /\ now w' = now w /\ timers w' = timers w /\
  objectURLs w' = objectURLs w /\ alerts w' = (alerts w ++ [msg])%list.

(** A submission that starts the analysis: [isAnalyzing] is set,
    [showResults] is cleared, one timeout is scheduled 3000 ms ahead, no
    dialog is shown, and the form and the previous result are kept. *)
Definition analysisStarted (w w' : World) : Prop :=
  isAnalyzing (ui w') = true /\ showResults (ui w') = false /\
  formData (ui w') = formData (ui w) /\ mriPreview (ui w') = mriPreview (ui w) /\
  analysisResult (ui w') = analysisResult (ui w) /\
  timers w' = (timers w ++ [now w + 3000])%list /\
  alerts w' = alerts w /\ now w' = now w /\ objectURLs w' = objectURLs w.

(** The two guards of [handleSubmit], lines 2802 and 2807. *)
Definition requiredMissing (fd : gmap string jsval) : bool :=
  negb (truthy (fd !! "firstName")) || negb (truthy (fd !! "lastName"))
  || negb (truthy (fd !! "email")).

Definition mriMissing (fd : gmap string jsval) : bool :=
  truthy (fd !! "hasMRI") && negb (truthy (fd !! "mriFile")).

(** The two verdicts, which the specification names [tumor-detected] and
    [normal]; [status] carries them as the strings of line 2792. *)
Inductive Verdict := tumor_detected | normal.

Definition verdict_of_status (s : string) : option Verdict :=
  if String.eqb s "Tumor Detected" then Some tumor_detected
  else if String.eqb s "No Tumor Detected" then Some normal
  else None.

(** The flag and the label of a result agree. *)
Definition consistent (res : AnalysisResult) : Prop :=
  (detected res = true <-> status res = "Tumor Detected") /\
  (detected res = false <-> status res = "No Tumor Detected").

(** The pending timeouts are in the order of their due times, none of them
    later than 3000 ms from now: the oldest one is the next to run. *)
Definition timersOrdered (w : World) : Prop :=
  StronglySorted Z.le (timers w) /\ Forall (fun due => due <= now w + 3000) (timers w).

(** The three required fields hold strings, the flag holds a boolean and
    the scan is [null] or a file. *)
Definition formShape (fd : gmap string jsval) : Prop :=
  (exists s, fd !! "firstName" = Some (VStr s)) /\
  (exists s, fd !! "lastName" = Some (VStr s)) /\
  (exists s, fd !! "email" = Some (VStr s)) /\
  (exists b, fd !! "hasMRI" = Some (VBool b)) /\
  (fd !! "mriFile" = Some VNull \/ exists f, fd !! "mriFile" = Some (VFile f)).

(** ** Example events and worlds *)

Definition textChange (n t v : string) : Event :=
  Change {| name := n; value := v; type := t; checked := false |}.

Definition checkboxChange (n : string) (b : bool) : Event :=
  Change {| name := n; value := "on"; type := "checkbox"; checked := b |}.

Definition fillRequired : list Event :=
  [textChange "firstName" "text" "Ada"; textChange "lastName" "text" "Lovelace";
   textChange "email" "email" "ada@example.org"].

(** The three required fields filled in. *)
Definition filledWorld : World :=
  default initialWorld (steps fillRequired initialWorld).

(** ... and the MRI flag checked, no scan attached. *)
Definition flaggedWorld : World :=
  default initialWorld (steps [checkboxChange "hasMRI" true] filledWorld).

(** ... submitted, one second ago. *)
Definition laterWorld : World :=
  default initialWorld (steps [Submit; Elapse 1000] filledWorld).

(** ... and submitted again while the first analysis is pending. *)
Definition secondWorld : World :=
  default initialWorld (steps [Submit; Elapse 1000; Submit] filledWorld).

(** One submission, resolved: the results section is on the page. *)
Definition resultsWorld : World :=
  default initialWorld (steps [Submit; TimerFires 0.75 0.25] filledWorld).

(* ================================================================== *)
(** * Further rendering and invariants                                 *)
(* ================================================================== *)

(** The MRI card, lines 2865-2890: rendered inside [formData.hasMRI &&
    (...)]; it shows the preview image when [mriPreview] is truthy and the
    upload hint otherwise, and the name of the attached file when
    [formData.mriFile] is truthy. *)
Record MriCard := {
  previewImage : option string;
  cardText : list string;
  cardFileName : option string;
}.

Definition mriCard (st : State) : option MriCard :=
  if truthy (formData st !! "hasMRI") then
    let preview :=
      match mriPreview st with
      | Some url => if String.eqb url "" then None else Some url
      | None => None
      end in
    Some {| previewImage := preview;
            cardText := match preview with
                        | Some _ => ["Click to replace MRI image"]
                        | None => ["Upload MRI Scan"; "JPG / PNG / JPEG"]
                        end;
            cardFileName :=
              if truthy (formData st !! "mriFile") then
                Some (match formData st !! "mriFile" with
                      | Some (VFile f) => file_name f
                      | _ => ""
                      end)
              else None |}
  else None.

(** The names of the properties of the form. *)
Definition formKeys : gset string :=
  {[ "firstName"; "lastName"; "age"; "phone"; "email"; "symptoms"; "hasMRI"; "mriFile" ]}.

(** The form of a reachable world: the eight properties it was created
    with and no other, the six text inputs holding strings, the flag a
    boolean and the scan [null] or a file. *)
Definition formTyped (fd : gmap string jsval) : Prop :=
  dom fd = formKeys /\
  (forall k, In k ["firstName"; "lastName"; "age"; "phone"; "email"; "symptoms"] ->
             exists s, fd !! k = Some (VStr s)) /\
  (exists b, fd !! "hasMRI" = Some (VBool b)) /\
  (fd !! "mriFile" = Some VNull \/ exists f, fd !! "mriFile" = Some (VFile f)).

(** What the page shows is coherent: while an analysis is announced the
    results are hidden and a timeout is pending, and shown results have a
    result to show. *)
Definition uiCoherent (w : World) : Prop :=
  (isAnalyzing (ui w) = true -> showResults (ui w) = false /\ timers w <> []) /\
  (showResults (ui w) = true -> exists res, analysisResult (ui w) = Some res).

(** The clock and the timeouts of a page loaded at time 0. *)
Definition clockSound (w : World) : Prop :=
  0 <= now w /\ Forall (fun due => 3000 <= due) (timers w) /\
  (analysisResult (ui w) <> None -> 3000 <= now w).

(** A result as the page can hold it. *)
Definition resultSound (res : AnalysisResult) : Prop :=
  consistent res /\
  exists n, 8000 <= n <= 10000 /\ confidence res = point2 (decimal n) ++ "%".

(** The events of a list of draws, one timeout each. *)
Definition fire (draws : list (float * float)) : list Event :=
  List.map (fun d => TimerFires (fst d) (snd d)) draws.

(** Two rejected submissions: the empty form, then the filled form with
    the flag set and no scan. *)
Definition rejectedWorld : World :=
  default initialWorld
    (steps (Submit :: fillRequired ++ [checkboxChange "hasMRI" true; Submit])%list
       initialWorld).

(** A file is an image for the preview when its MIME type says so. *)
Definition isImage (file : File) : bool := String.prefix "image/" (file_type file).

(** The preview on the page belongs to some attached file: there is a
    preview only when a file is attached, and its URL is one of those
    created so far. *)
Definition previewBacked (w : World) : Prop :=
  forall url, mriPreview (ui w) = Some url ->
    (exists f, formData (ui w) !! "mriFile" = Some (VFile f)) /\
    exists k, (k < objectURLs w)%nat /\ url = "blob:" ++ decimal (Z.of_nat k).

(** A pair of draws of [Math.random], as one run of the callback of
    [simulateAnalysis] makes them. *)
Definition drawsInRange (d : float * float) : Prop :=
  Math_random_range d.1 = true /\ Math_random_range d.2 = true.

(* ================================================================== *)
(** * Definitions used by the proofs about binary64 rounding           *)
(* ================================================================== *)

Abbreviation fexp64 := (fexp prec emax).

(** A shift record carries a sticky inexactness flag. *)
Definition inexact (r : shr_record) : bool := shr_r r || shr_s r.

(** [r] is what is left of the mantissa [M] after [k] right shifts. *)
Definition shifted (M k : Z) (r : shr_record) : Prop :=
  0 <= shr_m r /\
  shr_m r * 2 ^ k <= M < (shr_m r + 1) * 2 ^ k /\
  (if inexact r then shr_m r * 2 ^ k < M else M = shr_m r * 2 ^ k).

(** Exact values [m * 2^e] are compared as integers after scaling by
    [2^K], for exponents not below [-K]. *)
Definition scaled (K m e : Z) : Z := m * 2 ^ (e + K).

(* ================================================================== *)
(** * Binary64 rounding keeps a value between representable bounds     *)
(* ================================================================== *)

(** [digits2_pos p] is the number of binary digits of [p]. *)
Lemma digits2_pos_bounds (p : positive) :
  2 ^ (Z.pos (digits2_pos p) - 1) <= Z.pos p < 2 ^ Z.pos (digits2_pos p).
Proof.
  induction p as [p IH | p IH |]; cbn [digits2_pos].
  - rewrite Pos2Z.inj_succ.
    replace (Z.succ (Z.pos (digits2_pos p)) - 1) with (Z.succ (Z.pos (digits2_pos p) - 1)) by lia.
    rewrite !Z.pow_succ_r by lia. lia.
  - rewrite Pos2Z.inj_succ.
    replace (Z.succ (Z.pos (digits2_pos p)) - 1) with (Z.succ (Z.pos (digits2_pos p) - 1)) by lia.
    rewrite !Z.pow_succ_r by lia. lia.
  - cbn. lia.
Qed.

Lemma shifted_start (M : Z) : 0 <= M -> shifted M 0 (shr_record_of_loc M loc_Exact).
Proof. intros H. unfold shifted, inexact. cbn. lia. Qed.

(** One more shift keeps the invariant, and so do [n] of them. *)
Lemma shifted_shr_1 (M k : Z) (r : shr_record) :
  0 <= k -> shifted M k r -> shifted M (k + 1) (shr_1 r).
Proof.
  intros Hk (Hm & Hb & Hi). unfold shifted.
  rewrite Z.pow_add_r, Z.pow_1_r by lia.
  assert (HP : 0 < 2 ^ k) by (apply Z.pow_pos_nonneg; lia).
  set (P := 2 ^ k) in *. clearbody P.
  destruct r as [m r s]. unfold inexact in *. cbn [shr_m shr_r shr_s] in *.
  destruct m as [|[p|p|]|p]; try lia; cbn [shr_1 shr_m shr_r shr_s];
    destruct r, s; cbn [orb] in *; nia.
Qed.

Lemma shifted_iter (n : positive) : forall (M k : Z) (r : shr_record),
  0 <= k -> shifted M k r -> shifted M (k + Z.pos n) (SpecFloat.iter_pos shr_1 n r).
Proof.
  induction n as [n IH | n IH |]; intros M k r Hk H; cbn [SpecFloat.iter_pos].
  - replace (k + Z.pos n~1) with (k + 1 + Z.pos n + Z.pos n) by lia.
    apply IH; [lia|]. apply IH; [lia|]. now apply shifted_shr_1.
  - replace (k + Z.pos n~0) with (k + Z.pos n + Z.pos n) by lia.
    apply IH; [lia|]. now apply IH.
  - now apply shifted_shr_1.
Qed.

(** Rounding to nearest even keeps the shifted mantissa or adds one to
    it, the latter only when bits were shifted out. *)
Lemma round_nearest_even_shifted (M k : Z) (r : shr_record) :
  shifted M k r ->
  let mr := round_nearest_even (shr_m r) (loc_of_shr_record r) in
  shr_m r <= mr /\ (mr = shr_m r \/ mr = shr_m r + 1 /\ shr_m r * 2 ^ k < M).
Proof.
  intros (Hm & Hb & Hi). destruct r as [m r s]. unfold inexact in *.
  cbn [shr_m shr_r shr_s] in *.
  destruct r, s; cbn [orb loc_of_shr_record round_nearest_even] in *;
    try destruct (Z.even m); lia.
Qed.

Lemma fexp64_eq (e : Z) : fexp64 e = Z.max (e - 53) (-1074).
Proof. reflexivity. Qed.

Lemma Zdigits2_bounds (m : Z) :
  0 < m -> 2 ^ (Zdigits2 m - 1) <= m < 2 ^ Zdigits2 m.
Proof. destruct m as [|p|p]; try lia. intros _. apply digits2_pos_bounds. Qed.

Lemma Zdigits2_nonneg (m : Z) : 0 <= Zdigits2 m.
Proof. destruct m; cbn; lia. Qed.

(** [shr_fexp] shifts an exact mantissa up to the exponent [fexp] asks
    for, when that is above its own. *)
Lemma shr_fexp_exact (M E : Z) :
  0 <= M ->
  exists r e',
    shr_fexp prec emax M E loc_Exact = (r, e') /\
    e' = Z.max E (fexp64 (Zdigits2 M + E)) /\
    shifted M (e' - E) r.
Proof.
  intros HM. unfold shr_fexp, shr.
  destruct (fexp64 (Zdigits2 M + E) - E) as [|n|n] eqn:Hn.
  - eexists _, _. split; [reflexivity|]. split; [lia|].
    replace (E - E) with 0 by lia. now apply shifted_start.
  - eexists _, _. split; [reflexivity|]. split; [lia|].
    replace (E + Z.pos n - E) with (0 + Z.pos n) by lia.
    apply shifted_iter; [lia|]. now apply shifted_start.
  - eexists _, _. split; [reflexivity|]. split; [lia|].
    replace (E - E) with 0 by lia. now apply shifted_start.
Qed.

(** The first shift and the rounding to nearest even of [binary_round_aux]:
    the rounded mantissa lies between the floor and the ceiling of
    [M / 2^(e' - E)]. *)
Lemma round_shr_fexp (M E : Z) :
  0 <= M ->
  exists r e' mr,
    shr_fexp prec emax M E loc_Exact = (r, e') /\
    mr = round_nearest_even (shr_m r) (loc_of_shr_record r) /\
    e' = Z.max E (fexp64 (Zdigits2 M + E)) /\
    (forall T, M <= T * 2 ^ (e' - E) -> mr <= T) /\
    (forall T, T * 2 ^ (e' - E) <= M -> T <= mr).
Proof.
  intros HM. destruct (shr_fexp_exact M E HM) as (r & e' & Hs & He & Hsh).
  exists r, e', (round_nearest_even (shr_m r) (loc_of_shr_record r)).
  split; [exact Hs|]. split; [reflexivity|]. split; [exact He|].
  pose proof (round_nearest_even_shifted _ _ _ Hsh) as [Hle Hcases].
  destruct Hsh as (Hm & Hb & _).
  assert (HP : 0 < 2 ^ (e' - E)) by (apply Z.pow_pos_nonneg; lia).
  set (P := 2 ^ (e' - E)) in *. clearbody P.
  split; intros T HT.
  - destruct Hcases as [-> | [-> Hlt]]; nia.
  - nia.
Qed.

Section Scaled.
(** The scale: every exponent below is at least [- K]. *)
Variable K : Z.

Lemma scaled_shift (m e d : Z) :
  - K <= e -> 0 <= d -> scaled K (m * 2 ^ d) e = scaled K m (e + d).
Proof.
  intros He Hd. unfold scaled.
  replace (e + d + K) with (d + (e + K)) by lia.
  rewrite (Z.pow_add_r 2 d (e + K)) by lia. ring.
Qed.

Lemma scaled_le_iff (m1 m2 e : Z) : - K <= e -> scaled K m1 e <= scaled K m2 e <-> m1 <= m2.
Proof.
  intros He. unfold scaled.
  assert (0 < 2 ^ (e + K)) by (apply Z.pow_pos_nonneg; lia).
  symmetry. now apply Z.mul_le_mono_pos_r.
Qed.

Lemma scaled_lt_iff (m1 m2 e : Z) : - K <= e -> scaled K m1 e < scaled K m2 e <-> m1 < m2.
Proof.
  intros He. unfold scaled.
  assert (0 < 2 ^ (e + K)) by (apply Z.pow_pos_nonneg; lia).
  symmetry. now apply Z.mul_lt_mono_pos_r.
Qed.

Lemma scaled_digits (m e : Z) :
  - K <= e -> 0 < m ->
  2 ^ (Zdigits2 m - 1 + e + K) <= scaled K m e < 2 ^ (Zdigits2 m + e + K).
Proof.
  intros He Hm. unfold scaled.
  pose proof (Zdigits2_bounds m Hm) as [Hl Hu].
  assert (0 < Zdigits2 m) by (destruct m; cbn; lia).
  replace (Zdigits2 m - 1 + e + K) with ((Zdigits2 m - 1) + (e + K)) by lia.
  replace (Zdigits2 m + e + K) with (Zdigits2 m + (e + K)) by lia.
  rewrite (Z.pow_add_r 2 (Zdigits2 m - 1) (e + K)) by lia.
  rewrite (Z.pow_add_r 2 (Zdigits2 m) (e + K)) by lia.
  assert (0 < 2 ^ (e + K)) by (apply Z.pow_pos_nonneg; lia). nia.
Qed.

(** A smaller value has no more binary digits above the point. *)
Lemma scaled_le_digits (m1 e1 m2 e2 : Z) :
  - K <= e1 -> - K <= e2 -> 0 < m1 -> 0 < m2 ->
  scaled K m1 e1 <= scaled K m2 e2 -> Zdigits2 m1 + e1 <= Zdigits2 m2 + e2.
Proof.
  intros H1 H2 Hm1 Hm2 Hle.
  pose proof (scaled_digits m1 e1 H1 Hm1) as [Hl _].
  pose proof (scaled_digits m2 e2 H2 Hm2) as [_ Hu].
  assert (Hlt : 2 ^ (Zdigits2 m1 - 1 + e1 + K) < 2 ^ (Zdigits2 m2 + e2 + K)) by lia.
  apply Z.pow_lt_mono_r_iff in Hlt; [lia | lia |].
  pose proof (Zdigits2_nonneg m2). lia.
Qed.

Lemma fexp64_mono (a b : Z) : a <= b -> fexp64 a <= fexp64 b.
Proof. rewrite !fexp64_eq. lia. Qed.

Lemma scaled_0 (e : Z) : scaled K 0 e = 0.
Proof. reflexivity. Qed.

(** Moving a value to a smaller exponent. *)
Lemma scaled_align (m e e0 : Z) :
  - K <= e0 -> e0 <= e -> scaled K m e = scaled K (m * 2 ^ (e - e0)) e0.
Proof.
  intros H0 He. rewrite scaled_shift by lia. f_equal. lia.
Qed.

(** [binary_round_aux] on a positive exact value [M * 2^E] that lies
    between [lo * 2^blo] and [hi * 2^bhi], two values representable at
    every exponent the rounding may choose: the result is a positive
    number between the two bounds (or zero, when the lower bound is). *)
Lemma binary_round_aux_between (M E lo blo hi bhi : Z) :
  0 < M -> 0 <= lo -> 0 < hi ->
  - K <= E -> - K <= blo -> - K <= bhi -> E <= 971 ->
  fexp64 (Zdigits2 hi + bhi) <= Z.min bhi 971 ->
  (0 < lo -> fexp64 (Zdigits2 hi + bhi) <= blo) ->
  scaled K lo blo <= scaled K M E <= scaled K hi bhi ->
  (lo = 0 /\ binary_round_aux prec emax false M E loc_Exact = S754_zero false) \/
  exists m e,
    binary_round_aux prec emax false M E loc_Exact = S754_finite false m e /\
    E <= e /\ scaled K lo blo <= scaled K (Z.pos m) e <= scaled K hi bhi.
Proof.
  intros HM Hlo0 Hhi HE Hbl Hbh HE' HF HFlo [Hge Hle].
  destruct (round_shr_fexp M E ltac:(lia)) as (r & e' & mr & Hs & Hmr & He' & Hup & Hlo).
  assert (HdM : fexp64 (Zdigits2 M + E) <= fexp64 (Zdigits2 hi + bhi))
    by (apply fexp64_mono; now apply scaled_le_digits).
  assert (Hmr0 : 0 <= mr) by (apply Hlo; lia).
  assert (Hmrv : scaled K mr e' <= scaled K hi bhi).
  { destruct (Z.eq_dec e' E) as [-> | Hne].
    - rewrite Z.sub_diag, Z.pow_0_r in Hup.
      etransitivity; [|exact Hle]. apply scaled_le_iff; [lia|]. apply Hup. lia.
    - rewrite (scaled_align hi bhi e') by lia. apply scaled_le_iff; [lia|].
      apply Hup.
      rewrite (scaled_align hi bhi E) in Hle by lia.
      apply scaled_le_iff in Hle; [|lia].
      replace (bhi - E) with ((bhi - e') + (e' - E)) in Hle by lia.
      rewrite Z.pow_add_r in Hle by lia. lia. }
  assert (Hmrl : 0 < lo -> scaled K lo blo <= scaled K mr e').
  { intros Hlp. specialize (HFlo Hlp). destruct (Z.eq_dec e' E) as [-> | Hne].
    - rewrite Z.sub_diag, Z.pow_0_r in Hlo.
      etransitivity; [exact Hge|]. apply scaled_le_iff; [lia|]. apply Hlo. lia.
    - rewrite (scaled_align lo blo e') by lia. apply scaled_le_iff; [lia|].
      apply Hlo.
      rewrite (scaled_align lo blo E) in Hge by lia.
      apply scaled_le_iff in Hge; [|lia].
      replace (blo - E) with ((blo - e') + (e' - E)) in Hge by lia.
      rewrite Z.pow_add_r in Hge by lia. lia. }
  unfold binary_round_aux. rewrite Hs, <- Hmr.
  destruct (shr_fexp_exact mr e' Hmr0) as (r2 & e2 & Hs2 & He2 & (Hm2 & Hb2 & _)).
  rewrite Hs2.
  assert (HP : 0 < 2 ^ (e2 - e')) by (apply Z.pow_pos_nonneg; lia).
  assert (Hd2 : 0 < mr -> fexp64 (Zdigits2 mr + e') <= fexp64 (Zdigits2 hi + bhi))
    by (intros; apply fexp64_mono; apply scaled_le_digits; lia).
  assert (Hm2l : 0 < lo -> scaled K lo blo <= scaled K (shr_m r2) e2).
  { intros Hlp. specialize (HFlo Hlp). specialize (Hmrl Hlp).
    assert (0 < mr).
    { apply (scaled_lt_iff 0 mr e'); [lia|]. rewrite scaled_0.
      eapply Z.lt_le_trans; [|exact Hmrl].
      apply (scaled_lt_iff 0 lo blo); lia. }
    specialize (Hd2 ltac:(lia)).
    destruct (Z.eq_dec e2 e') as [Heq | Hne].
    - rewrite Heq in *. rewrite Z.sub_diag, Z.pow_0_r in Hb2.
      replace (shr_m r2) with mr by lia. exact Hmrl.
    - rewrite (scaled_align lo blo e2) by lia. apply scaled_le_iff; [lia|].
      rewrite (scaled_align lo blo e'), (scaled_align mr e' e') in Hmrl by lia.
      apply scaled_le_iff in Hmrl; [|lia].
      rewrite Z.sub_diag, Z.pow_0_r in Hmrl.
      replace (blo - e') with ((blo - e2) + (e2 - e')) in Hmrl by lia.
      rewrite Z.pow_add_r in Hmrl by lia.
      assert (0 <= 2 ^ (blo - e2)) by (apply Z.pow_nonneg; lia).
      nia. }
  destruct (shr_m r2) as [|m2|m2] eqn:Em2; [left | right | lia].
  - split; [|reflexivity].
    destruct (Z.eq_dec lo 0) as [|Hne]; [assumption|exfalso].
    specialize (Hm2l ltac:(lia)). rewrite scaled_0 in Hm2l.
    assert (scaled K 0 blo < scaled K lo blo) by (apply scaled_lt_iff; lia).
    rewrite scaled_0 in *. lia.
  - assert (Hmrpos : 0 < mr) by nia.
    specialize (Hd2 Hmrpos).
    replace (e2 <=? emax - prec) with true
      by (symmetry; apply Z.leb_le; change (emax - prec) with 971; lia).
    exists m2, e2. split; [reflexivity|]. split; [lia|]. split.
    + destruct (Z.eq_dec lo 0) as [->|Hne]; [|apply Hm2l; lia].
      rewrite scaled_0. apply (scaled_le_iff 0 (Z.pos m2) e2); lia.
    + etransitivity; [|exact Hmrv].
      rewrite (scaled_align mr e' e') by lia.
      rewrite (scaled_align (Z.pos m2) e2 e') by lia.
      apply scaled_le_iff; [lia|]. rewrite Z.sub_diag, Z.pow_0_r. lia.
Qed.
End Scaled.

Section ScaledOps.
Variable K : Z.

(** [shl_align] moves a number to the smaller of two exponents and keeps
    its value. *)
Lemma shl_align_spec (m : positive) (e e' : Z) :
  - K <= e -> - K <= e' ->
  exists m2 e2, shl_align m e e' = (m2, e2) /\ e2 = Z.min e e' /\
                scaled K (Z.pos m2) e2 = scaled K (Z.pos m) e.
Proof.
  intros He He'. unfold shl_align.
  destruct (e' - e) as [|d|d] eqn:Hd.
  - eexists _, _. split; [reflexivity|]. split; [lia|reflexivity].
  - eexists _, _. split; [reflexivity|]. split; [lia|reflexivity].
  - eexists _, _. split; [reflexivity|]. split; [lia|].
    rewrite (scaled_align K (Z.pos m) e e') by lia. f_equal.
    replace (e - e') with (Z.pos d) by lia.
    rewrite (Pos.iter_swap_gen _ _ Z.pos xO (Z.mul 2)) by reflexivity.
    rewrite <- (Z.shiftl_mul_pow2 (Z.pos m) (Z.pos d)) by lia. reflexivity.
Qed.

(** The product of two positive numbers, when its exact value does not
    exceed a representable bound: zero or a positive number not above the
    bound. *)
Lemma SF64mul_pos_upper (mx my : positive) (ex ey hi bhi : Z) :
  0 < hi -> - K <= ex + ey -> - K <= bhi -> ex + ey <= 971 ->
  fexp64 (Zdigits2 hi + bhi) <= Z.min bhi 971 ->
  scaled K (Z.pos mx * Z.pos my) (ex + ey) <= scaled K hi bhi ->
  SF64mul (S754_finite false mx ex) (S754_finite false my ey) = S754_zero false \/
  exists m e,
    SF64mul (S754_finite false mx ex) (S754_finite false my ey) = S754_finite false m e /\
    ex + ey <= e /\ scaled K (Z.pos m) e <= scaled K hi bhi.
Proof.
  intros Hhi HE Hb HE' HF Hle. unfold SF64mul, SFmul. cbn [xorb].
  destruct (binary_round_aux_between K (Z.pos (mx * my)) (ex + ey) 0 (ex + ey) hi bhi)
    as [[_ H] | (m & e & H & He & _ & Hv)]; try lia.
  - rewrite scaled_0, Pos2Z.inj_mul. split; [|exact Hle].
    apply Z.mul_nonneg_nonneg; [lia|]. apply Z.pow_nonneg. lia.
  - now left.
  - right. now exists m, e.
Qed.

(** The sum of two positive numbers, when its exact value lies between
    two representable bounds, lies between them too. *)
Lemma SF64add_pos_between (mx my : positive) (ex ey lo blo hi bhi : Z) :
  1074 <= K ->
  0 <= lo -> 0 < hi -> - K <= ex -> - K <= ey -> - K <= blo -> - K <= bhi ->
  ex <= 971 ->
  fexp64 (Zdigits2 hi + bhi) <= Z.min bhi 971 ->
  (0 < lo -> fexp64 (Zdigits2 hi + bhi) <= blo) ->
  scaled K lo blo <= scaled K (Z.pos mx) ex + scaled K (Z.pos my) ey <= scaled K hi bhi ->
  (lo = 0 /\ SF64add (S754_finite false mx ex) (S754_finite false my ey) = S754_zero false) \/
  exists m e,
    SF64add (S754_finite false mx ex) (S754_finite false my ey) = S754_finite false m e /\
    scaled K lo blo <= scaled K (Z.pos m) e <= scaled K hi bhi.
Proof.
  intros HK Hlo Hhi Hex Hey Hbl Hbh Hex' HF HFlo Hv.
  unfold SF64add, SFadd. cbn [cond_Zopp].
  set (ez := Z.min ex ey).
  destruct (shl_align_spec mx ex ez) as (ax & e1 & -> & He1 & Hax); [lia|lia|].
  destruct (shl_align_spec my ey ez) as (ay & e2 & -> & He2 & Hay); [lia|lia|].
  cbn [fst]. replace e1 with ez in Hax by lia. replace e2 with ez in Hay by lia.
  change (Z.pos ax + Z.pos ay) with (Z.pos (ax + ay)).
  unfold binary_normalize, binary_round.
  assert (Hfe : - K <= fexp64 (Z.pos (digits2_pos (ax + ay)) + ez))
    by (rewrite fexp64_eq; lia).
  destruct (shl_align_spec (ax + ay) ez _ ltac:(lia) Hfe) as (mz & e3 & -> & He3 & Hmz).
  assert (Hsum : scaled K (Z.pos mz) e3 = scaled K (Z.pos mx) ex + scaled K (Z.pos my) ey).
  { rewrite Hmz, <- Hax, <- Hay, Pos2Z.inj_add. unfold scaled. ring. }
  destruct (binary_round_aux_between K (Z.pos mz) e3 lo blo hi bhi)
    as [H | (m & e & H & He & Hb)]; try lia.
  - now left.
  - right. now exists m, e.
Qed.
End ScaledOps.

(** ** The confidence value of a draw *)

(** The exponent and the mantissa of a finite Number. *)
Lemma valid_finite_bounds (x : float) (s : bool) (m : positive) (e : Z) :
  Prim2SF x = S754_finite s m e ->
  -1074 <= e <= 971 /\ Z.pos m < 2 ^ 53.
Proof.
  intros Hx. pose proof (Prim2SF_valid x) as Hv. rewrite Hx in Hv.
  cbn [valid_binary] in Hv. unfold bounded, canonical_mantissa in Hv.
  apply andb_prop in Hv as [Hc Hb].
  apply Z.eqb_eq in Hc. apply Z.leb_le in Hb.
  change (emax - prec) with 971 in Hb. rewrite fexp64_eq in Hc.
  split; [lia|].
  assert (Hd : Z.pos (digits2_pos m) <= 53) by lia.
  pose proof (digits2_pos_bounds m) as [_ Hu].
  eapply Z.lt_le_trans; [exact Hu|]. apply Z.pow_le_mono_r; lia.
Qed.

(** A draw of [Math.random] is a zero or a positive number below one. *)
Lemma Math_random_range_SF (r : float) :
  Math_random_range r = true ->
  (exists s, Prim2SF r = S754_zero s) \/
  (exists m e, Prim2SF r = S754_finite false m e /\
               -1074 <= e <= -52 /\ Z.pos m < 2 ^ (- e)).
Proof.
  unfold Math_random_range. intros H. apply andb_prop in H as [H0 H1].
  rewrite leb_spec in H0. rewrite ltb_spec in H1.
  change (Prim2SF 0) with (S754_zero false) in H0.
  change (Prim2SF 1) with (S754_finite false 4503599627370496 (-52)) in H1.
  destruct (Prim2SF r) as [s | s | | s m e] eqn:Hr.
  - left. now exists s.
  - destruct s; discriminate.
  - discriminate.
  - right. destruct s; [discriminate|]. exists m, e. split; [reflexivity|].
    destruct (valid_finite_bounds r false m e Hr) as [He Hm].
    unfold SFltb, SFcompare in H1.
    destruct (Z.compare_spec e (-52)) as [-> | Hlt | Hgt]; try discriminate.
    + split; [lia|]. change (2 ^ (- -52)) with 4503599627370496.
      destruct (PosDef.Pos.compare_cont Eq m 4503599627370496) eqn:Hc;
        [discriminate H1 | | discriminate H1].
      apply Pos.compare_lt_iff in Hc. apply Pos2Z.pos_lt_pos in Hc. exact Hc.
    + split; [lia|]. eapply Z.lt_le_trans; [exact Hm|].
      apply Z.pow_le_mono_r; lia.
Qed.

Lemma valid_finite_canonical (x : float) (s : bool) (m : positive) (e : Z) :
  Prim2SF x = S754_finite s m e -> fexp64 (Z.pos (digits2_pos m) + e) = e.
Proof.
  intros Hx. pose proof (Prim2SF_valid x) as Hv. rewrite Hx in Hv.
  cbn [valid_binary] in Hv. unfold bounded, canonical_mantissa in Hv.
  apply andb_prop in Hv as [Hc _]. now apply Z.eqb_eq in Hc.
Qed.

(** [r * 20] for a draw [r]: a zero or a positive number not above 20. *)
Lemma random_mul_20_SF (r : float) :
  Math_random_range r = true ->
  (exists s, Prim2SF (r * 20) = S754_zero s) \/
  (exists m e, Prim2SF (r * 20) = S754_finite false m e /\
               -1074 <= e <= 971 /\ scaled 1200 (Z.pos m) e <= scaled 1200 5 2).
Proof.
  intros Hr. pose proof (mul_spec r 20) as Hmul.
  change (Prim2SF 20) with (S754_finite false 5629499534213120 (-48)) in Hmul.
  destruct (Math_random_range_SF r Hr) as [[s Hs] | (m & e & Hs & He & Hm)];
    rewrite Hs in Hmul.
  - left. now exists (xorb s false).
  - destruct (SF64mul_pos_upper 1200 m 5629499534213120 e (-48) 5 2)
      as [H | (m' & e' & H & He' & Hv)]; try lia.
    + rewrite fexp64_eq. cbn. lia.
    + unfold scaled.
      replace (2 + 1200) with (50 + (- e) + (e + -48 + 1200)) by lia.
      rewrite (Z.pow_add_r 2 (50 + - e)), (Z.pow_add_r 2 50) by lia.
      assert (0 < 2 ^ (e + -48 + 1200)) by (apply Z.pow_pos_nonneg; lia).
      change (2 ^ 50) with 1125899906842624.
      rewrite !Z.mul_assoc. apply Z.mul_le_mono_nonneg_r; lia.
    + left. exists false. congruence.
    + right. exists m', e'. rewrite H in Hmul. split; [exact Hmul|].
      split; [|exact Hv]. now apply (valid_finite_bounds _ _ _ _ Hmul).
Qed.

(** [r * 20 + 80] for a draw [r] is a positive number between 80 and 100:
    its exponent is [-46] and its 53-bit mantissa lies between
    [80 * 2^46] and [100 * 2^46]. *)
Lemma confidence_value_SF (r : float) :
  Math_random_range r = true ->
  exists m, Prim2SF (confidence_value r) = S754_finite false m (-46) /\
            80 * 2 ^ 46 <= Z.pos m <= 100 * 2 ^ 46.
Proof.
  intros Hr. unfold confidence_value.
  pose proof (add_spec (r * 20) 80) as Hadd.
  change (Prim2SF 80) with (S754_finite false 5629499534213120 (-46)) in Hadd.
  assert (H80 : scaled 1200 5629499534213120 (-46) = scaled 1200 5 4) by reflexivity.
  assert (Hres : exists m e, Prim2SF (r * 20 + 80) = S754_finite false m e /\
                   scaled 1200 5 4 <= scaled 1200 (Z.pos m) e <= scaled 1200 25 2).
  { destruct (random_mul_20_SF r Hr) as [[s Hs] | (mx & ex & Hs & He & Hv)];
      rewrite Hs in Hadd.
    - exists 5629499534213120%positive, (-46). split; [exact Hadd|].
      rewrite H80. unfold scaled. cbn. lia.
    - destruct (SF64add_pos_between 1200 mx 5629499534213120 ex (-46) 5 4 25 2)
        as [[H _] | (m & e & H & Hb)]; try lia.
      + rewrite fexp64_eq. cbn. lia.
      + rewrite fexp64_eq. cbn. lia.
      + rewrite H80.
        assert (0 < scaled 1200 (Z.pos mx) ex)
          by (apply (scaled_lt_iff 1200 0 (Z.pos mx) ex); lia).
        assert (scaled 1200 5 2 + scaled 1200 5 4 = scaled 1200 25 2) by reflexivity.
        lia.
      + exists m, e. rewrite H in Hadd. now split. }
  destruct Hres as (m & e & Hm & Hlo & Hhi).
  pose proof (valid_finite_bounds _ _ _ _ Hm) as [He _].
  pose proof (valid_finite_canonical _ _ _ _ Hm) as Hc.
  pose proof (scaled_le_digits 1200 5 4 (Z.pos m) e
                ltac:(lia) ltac:(lia) ltac:(lia) ltac:(lia) Hlo) as Hdl.
  pose proof (scaled_le_digits 1200 (Z.pos m) e 25 2
                ltac:(lia) ltac:(lia) ltac:(lia) ltac:(lia) Hhi) as Hdh.
  cbn [Zdigits2 digits2_pos Pos.succ] in Hdl, Hdh.
  assert (e = -46) as -> by (rewrite fexp64_eq in Hc; lia).
  exists m. split; [exact Hm|].
  rewrite (scaled_align 1200 5 4 (-46)) in Hlo by lia.
  rewrite (scaled_align 1200 25 2 (-46)) in Hhi by lia.
  apply scaled_le_iff in Hlo; [|lia]. apply scaled_le_iff in Hhi; [|lia].
  change (5 * 2 ^ (4 - -46)) with (80 * 2 ^ 46) in Hlo.
  change (25 * 2 ^ (2 - -46)) with (100 * 2 ^ 46) in Hhi.
  split; assumption.
Qed.

(** Its nearest number of hundredths lies between 8000 and 10000. *)
Lemma round_hundredths_range (m : positive) :
  80 * 2 ^ 46 <= Z.pos m <= 100 * 2 ^ 46 ->
  8000 <= round_hundredths m (-46) <= 10000.
Proof.
  intros [Hl Hu]. unfold round_hundredths. cbn [Z.leb Z.compare Z.opp Z.sub Z.add Z.pos_sub].
  change (2 ^ 46) with 70368744177664 in *.
  split.
  - apply Z.div_le_lower_bound; [reflexivity|]. lia.
  - apply Z.lt_succ_r. apply Z.div_lt_upper_bound; [reflexivity|]. lia.
Qed.

(** The formatted confidence of a draw: the digits of a number of
    hundredths between 8000 and 10000, the point, and the percent sign. *)
Lemma confidence_string_hundredths (r : float) :
  Math_random_range r = true ->
  exists n, 8000 <= n <= 10000 /\
            confidence_string r = Some (point2 (decimal n) ++ "%").
Proof.
  intros Hr. destruct (confidence_value_SF r Hr) as (m & Hm & Hb).
  exists (round_hundredths m (-46)). split; [now apply round_hundredths_range|].
  unfold confidence_string, toFixed2. rewrite Hm.
  cbn [Z.leb Z.compare andb]. reflexivity.
Qed.

(** Reading back a formatted number of hundredths, checked on each of the
    2001 values of the range. *)
Lemma percent_hundredths_point2 (n : Z) :
  8000 <= n <= 10000 ->
  percent_hundredths (point2 (decimal n) ++ "%") = Some n.
Proof.
  intros Hn.
  assert (Hall : forallb (fun k =>
            match percent_hundredths (point2 (decimal k) ++ "%") with
            | Some k' => k' =? k
            | None => false
            end) (List.map (fun i => 8000 + Z.of_nat i) (seq 0 2001)) = true)
    by (vm_compute; reflexivity).
  rewrite forallb_forall in Hall. specialize (Hall n).
  destruct (percent_hundredths (point2 (decimal n) ++ "%")) as [k|].
  - f_equal. apply Z.eqb_eq. apply Hall. apply in_map_iff.
    exists (Z.to_nat (n - 8000)). split; [lia|]. apply in_seq. lia.
  - exfalso. assert (false = true); [|discriminate]. apply Hall. apply in_map_iff.
    exists (Z.to_nat (n - 8000)). split; [lia|]. apply in_seq. lia.
Qed.

(* ================================================================== *)
(** * C1: the confidence value                                         *)
(* ================================================================== *)

(** The largest Number below one already gives exactly 100 before any
    formatting: [r * 20] rounds to [20 - 2^-48] and the sum with 80 rounds
    to 100. *)
Example confidence_value_largest_draw :
  Math_random_range 0x1.fffffffffffffp-1 = true /\
  (confidence_value 0x1.fffffffffffffp-1 =? 100)%float = true.
Proof. split; vm_compute; reflexivity. Qed.

(** C1, as stated, fails: the draw [r = 1 - 2^-13 = 0.9998779296875] is
    in [0, 1), [r * 20 + 80] is [99.99755859375], and [toFixed(2)] rounds
    it to ["100.00"]; the confidence string ["100.00%"] denotes 100, which
    is not in the half-open interval [80, 100). *)
Lemma C1_counterexample :
  Math_random_range 0.9998779296875 = true /\
  confidence_string 0.9998779296875 = Some "100.00%" /\
  percent_hundredths "100.00%" = Some 10000 /\
  ~ (exists s n, confidence_string 0.9998779296875 = Some s /\
                 percent_hundredths s = Some n /\ 8000 <= n < 10000).
Proof.
  assert (Hc : confidence_string 0.9998779296875 = Some "100.00%")
    by (vm_compute; reflexivity).
  split; [vm_compute; reflexivity|]. split; [exact Hc|].
  split; [vm_compute; reflexivity|].
  intros (s & n & Hs & Hn & Hrange). rewrite Hc in Hs.
  injection Hs as <-. vm_compute in Hn. injection Hn as <-. lia.
Qed.

(** C1, amended: for every draw [r] in [0, 1), [r * 20 + 80] computed in
    binary64 lies between 80 and 100, and the confidence string (the value
    formatted by [toFixed(2)] and suffixed with the percent sign) denotes a
    percentage in the closed interval [80, 100]. *)
Theorem C1_confidence_in_closed_interval (r : float) :
  Math_random_range r = true ->
  (80 <=? confidence_value r)%float = true /\
  (confidence_value r <=? 100)%float = true /\
  exists s n, confidence_string r = Some s /\
              percent_hundredths s = Some n /\ 8000 <= n <= 10000.
Proof.
  intros Hr. destruct (confidence_value_SF r Hr) as (m & Hm & Hlo & Hhi).
  split; [|split].
  - rewrite leb_spec, Hm.
    change (Prim2SF 80) with (S754_finite false 5629499534213120 (-46)).
    unfold SFleb, SFcompare. rewrite Z.compare_refl.
    destruct (PosDef.Pos.compare_cont Eq 5629499534213120 m) eqn:Hc;
      [reflexivity | reflexivity | exfalso].
    apply Pos.compare_gt_iff, Pos2Z.pos_lt_pos in Hc.
    change (80 * 2 ^ 46) with 5629499534213120 in Hlo. lia.
  - rewrite leb_spec, Hm.
    change (Prim2SF 100) with (S754_finite false 7036874417766400 (-46)).
    unfold SFleb, SFcompare. rewrite Z.compare_refl.
    destruct (PosDef.Pos.compare_cont Eq m 7036874417766400) eqn:Hc;
      [reflexivity | reflexivity | exfalso].
    apply Pos.compare_gt_iff, Pos2Z.pos_lt_pos in Hc.
    change (100 * 2 ^ 46) with 7036874417766400 in Hhi. lia.
  - destruct (confidence_string_hundredths r Hr) as (n & Hn & Hs).
    exists (point2 (decimal n) ++ "%"), n.
    split; [exact Hs|]. split; [now apply percent_hundredths_point2 | exact Hn].
Qed.

Lemma C1_confidence_in_closed_interval_witness :
  Math_random_range 0.5 = true /\
  (80 <=? confidence_value 0.5)%float = true /\
  (confidence_value 0.5 <=? 100)%float = true /\
  exists s n, confidence_string 0.5 = Some s /\
              percent_hundredths s = Some n /\ 8000 <= n <= 10000.
Proof.
  split; [reflexivity|].
  apply (C1_confidence_in_closed_interval 0.5). reflexivity.
Defined.

(* ================================================================== *)
(** * The handlers and the event loop                                 *)
(* ================================================================== *)

(** The three ways [handleSubmit] ends. *)
Lemma handleSubmit_cases (w : World) :
  (requiredMissing (formData (ui w)) = true /\
   rejectedWith "Please fill all required fields" w (run handleSubmit w)) \/
  (requiredMissing (formData (ui w)) = false /\ mriMissing (formData (ui w)) = true /\
   rejectedWith "Please upload MRI image" w (run handleSubmit w)) \/
  (requiredMissing (formData (ui w)) = false /\ mriMissing (formData (ui w)) = false /\
   analysisStarted w (run handleSubmit w)).
Proof.
  unfold handleSubmit, requiredMissing, mriMissing, run.
  unfold mbind, M_bind, getState. cbn beta iota.
  destruct (negb (truthy (formData (ui w) !! "firstName"))
            || negb (truthy (formData (ui w) !! "lastName"))
            || negb (truthy (formData (ui w) !! "email"))).
  - left. split; [reflexivity|]. repeat split.
  - right. destruct (truthy (formData (ui w) !! "hasMRI")
                     && negb (truthy (formData (ui w) !! "mriFile"))).
    + left. repeat split.
    + right. repeat split.
Qed.

Lemma truthy_VStr (s : string) : truthy (Some (VStr s)) = true <-> s <> "".
Proof.
  cbn. destruct (String.eqb_spec s ""); cbn; split; congruence.
Qed.

(** ** What one event changes *)

Lemma run_handleInputChange (e : Target) (w : World) :
  run (handleInputChange e) w =
  {| ui := {| formData := <[name e := if String.eqb (type e) "checkbox"
                                      then VBool (checked e) else VStr (value e)]>
                            (formData (ui w));
              mriPreview := mriPreview (ui w); isAnalyzing := isAnalyzing (ui w);
              showResults := showResults (ui w);
              analysisResult := analysisResult (ui w) |};
     now := now w; timers := timers w; alerts := alerts w;
     objectURLs := objectURLs w |}.
Proof. reflexivity. Qed.

Lemma run_handleFileChange_none (w : World) : run (handleFileChange []) w = w.
Proof. destruct w as [[] ? ? ? ?]. reflexivity. Qed.

Lemma run_handleFileChange_some (file : File) (files : list File) (w : World) :
  let w' := run (handleFileChange (file :: files)) w in
  formData (ui w') = <["mriFile" := VFile file]> (formData (ui w)) /\
  isAnalyzing (ui w') = isAnalyzing (ui w) /\
  showResults (ui w') = showResults (ui w) /\
  analysisResult (ui w') = analysisResult (ui w) /\
  now w' = now w /\ timers w' = timers w /\ alerts w' = alerts w.
Proof.
  unfold handleFileChange, run. cbn [lookup list_lookup].
  unfold mbind, M_bind. cbn.
  destruct (String.prefix "image/" (file_type file)); cbn; repeat split.
Qed.

Lemma click_resultButtons (b : Button) (w : World) :
  In b resultButtons -> onClick b = None /\ click b w = (tt, w).
Proof.
  intros [<- | [<- | []]]; split; reflexivity.
Qed.

(** A click on a button of the results section changes nothing. *)
Lemma step_Click (l : string) (w w' : World) :
  step (Click l) w = Some w' -> w' = w.
Proof.
  cbn [step]. unfold resultsSection.
  destruct (showResults (ui w)); [|discriminate].
  destruct (analysisResult (ui w)) as [r|]; [|discriminate].
  cbn [mbind option_bind buttons]. unfold resultButtons. cbn [List.find label].
  destruct (String.eqb "Preview Result" l); [now intros [= <-]|].
  destruct (String.eqb "Download PDF" l); [now intros [= <-]|discriminate].
Qed.

(** A timeout that runs is the oldest one; it stores the result it
    resolves to and shows it. *)
Lemma step_TimerFires (r1 r2 : float) (w w' : World) :
  step (TimerFires r1 r2) w = Some w' ->
  exists due rest res,
    timers w = due :: rest /\
    Math_random_range r1 = true /\ Math_random_range r2 = true /\
    simulateAnalysis_resolve r1 r2 = Some res /\
    w' = {| ui := {| formData := formData (ui w); mriPreview := mriPreview (ui w);
                     isAnalyzing := false; showResults := true;
                     analysisResult := Some res |};
            now := Z.max (now w) due; timers := rest; alerts := alerts w;
            objectURLs := objectURLs w |}.
Proof.
  cbn [step]. destruct (timers w) as [|due rest]; [discriminate|].
  destruct (Math_random_range r1) eqn:H1; [|discriminate].
  destruct (Math_random_range r2) eqn:H2; [|discriminate].
  cbn [andb]. destruct (simulateAnalysis_resolve r1 r2) as [res|]; [|discriminate].
  cbn. intros [= <-]. exists due, rest, res. repeat split.
Qed.

Lemma reachable_steps (evs : list Event) : forall w w' : World,
  reachable w -> steps evs w = Some w' -> reachable w'.
Proof.
  induction evs as [|ev evs IH]; intros w w' Hw; cbn [steps].
  - now intros [= <-].
  - destruct (step ev w) as [w1|] eqn:Hs; [|discriminate]. cbn.
    apply IH. now apply (reachable_step ev w).
Qed.

Lemma filledWorld_reachable : reachable filledWorld.
Proof.
  apply (reachable_steps fillRequired initialWorld); [constructor|].
  vm_compute. reflexivity.
Qed.

Lemma append_singleton_neq {A : Type} (l : list A) (x : A) : (l ++ [x])%list <> l.
Proof.
  intros H. apply (f_equal (@List.length A)) in H.
  rewrite length_app in H. cbn in H. lia.
Qed.

(** ** The shape of the form in a reachable world *)

(** An event leaves the form alone, stores the value of one rendered
    input under its name, or attaches a file. *)
Lemma step_formData (ev : Event) (w w' : World) :
  step ev w = Some w' ->
  formData (ui w') = formData (ui w) \/
  (exists e, (name e, type e) ∈ formInputs /\
     formData (ui w') =
       <[name e := if String.eqb (type e) "checkbox" then VBool (checked e)
                   else VStr (value e)]> (formData (ui w))) \/
  (exists file, formData (ui w') = <["mriFile" := VFile file]> (formData (ui w))).
Proof.
  destruct ev as [e | files | | l | r1 r2 | d]; cbn [step].
  - destruct (bool_decide _) eqn:Hin; [|discriminate]. intros [= <-].
    right. left. exists e. split; [now apply bool_decide_eq_true in Hin|].
    now rewrite run_handleInputChange.
  - destruct (fileInputRendered (ui w)); [|discriminate]. intros [= <-].
    destruct files as [|file files]; [left; now rewrite run_handleFileChange_none|].
    right. right. exists file. apply run_handleFileChange_some.
  - intros [= <-]. left.
    destruct (handleSubmit_cases w) as [[_ Hr] | [(_ & _ & Hr) | (_ & _ & Hr)]].
    + destruct Hr as (-> & _). reflexivity.
    + destruct Hr as (-> & _). reflexivity.
    + apply Hr.
  - intros H. apply step_Click in H as ->. now left.
  - intros H. apply step_TimerFires in H as (due & rest & res & _ & _ & _ & _ & ->).
    now left.
  - destruct (0 <=? d); [|discriminate]. intros [= <-]. now left.
Qed.

Lemma formShape_initial : formShape initialFormData.
Proof.
  unfold formShape. repeat split; try (eexists; vm_compute; reflexivity).
  left. vm_compute. reflexivity.
Qed.

Lemma reachable_formShape (w : World) : reachable w -> formShape (formData (ui w)).
Proof.
  induction 1 as [|ev w w' Hw IH Hstep]; [apply formShape_initial|].
  destruct IH as (Hf & Hl & He & Hm & Hs).
  destruct (step_formData ev w w' Hstep) as [-> | [(e & Hin & ->) | (file & ->)]].
  - now repeat split.
  - unfold formInputs in Hin. destruct e as [n v t c]. cbn [name type value checked] in *.
    repeat (apply elem_of_cons in Hin as [Hin | Hin]);
      try (injection Hin as -> ->; cbn [String.eqb Ascii.eqb Bool.eqb];
           unfold formShape;
           rewrite ?lookup_insert_eq, ?lookup_insert_ne by discriminate;
           repeat split; solve [assumption | eexists; reflexivity]).
    now apply elem_of_nil in Hin.
  - unfold formShape. rewrite !lookup_insert_ne by discriminate. rewrite lookup_insert_eq.
    repeat split; try assumption. right. now exists file.
Qed.

(* ================================================================== *)
(** * C2: required fields                                              *)
(* ================================================================== *)

(** C2: in every world whose form has the empty string as first name,
    last name or e-mail, [handleSubmit] shows the blocking alert and
    changes nothing else: no analysis is started ([isAnalyzing],
    [showResults] and the timers are as before) and the form and the
    previous result are kept.  When the three fields are non-empty strings
    and the MRI guard does not fire, no alert is shown and the analysis is
    started.  (In a reachable world the three fields always hold strings:
    [reachable_formShape].) *)
Theorem C2_required_fields (w : World) :
  let fd := formData (ui w) in
  ((fd !! "firstName" = Some (VStr "") \/ fd !! "lastName" = Some (VStr "") \/
    fd !! "email" = Some (VStr "")) ->
   rejectedWith "Please fill all required fields" w (run handleSubmit w)) /\
  (forall f l e : string,
     fd !! "firstName" = Some (VStr f) -> fd !! "lastName" = Some (VStr l) ->
     fd !! "email" = Some (VStr e) ->
     f <> "" -> l <> "" -> e <> "" ->
     mriMissing fd = false ->
     analysisStarted w (run handleSubmit w)).
Proof.
  cbn zeta. split.
  - intros Hempty.
    assert (Hreq : requiredMissing (formData (ui w)) = true).
    { unfold requiredMissing.
      destruct Hempty as [-> | [-> | ->]]; cbn [truthy String.eqb negb];
        rewrite ?orb_true_r; reflexivity. }
    destruct (handleSubmit_cases w) as [[_ Hr] | [(Hm & _) | (Hm & _)]];
      [exact Hr | congruence | congruence].
  - intros f l e Hf Hl He Hfn Hln Hen Hmri.
    assert (Hreq : requiredMissing (formData (ui w)) = false).
    { unfold requiredMissing. rewrite Hf, Hl, He. cbn [truthy].
      destruct (String.eqb_spec f ""), (String.eqb_spec l ""), (String.eqb_spec e "");
        cbn; congruence. }
    destruct (handleSubmit_cases w) as [[Hm _] | [(_ & Hq & _) | (_ & _ & Hr)]];
      [congruence | congruence | exact Hr].
Qed.

(** The empty form is rejected; the filled form is accepted. *)
Lemma C2_required_fields_witness :
  rejectedWith "Please fill all required fields" initialWorld
    (run handleSubmit initialWorld) /\
  analysisStarted filledWorld (run handleSubmit filledWorld).
Proof.
  split.
  - apply (C2_required_fields initialWorld). left. reflexivity.
  - apply (C2_required_fields filledWorld) with "Ada" "Lovelace" "ada@example.org";
      try reflexivity; discriminate.
Defined.

(** A submission is not both rejected and accepted. *)
Lemma rejected_not_started (msg : string) (w w' : World) :
  rejectedWith msg w w' -> analysisStarted w w' -> False.
Proof.
  intros (_ & _ & _ & _ & Ha) (_ & _ & _ & _ & _ & _ & Hb & _).
  rewrite Hb in Ha. symmetry in Ha. now apply append_singleton_neq in Ha.
Qed.

(* ================================================================== *)
(** * C3: the MRI scan is required only when the flag is set           *)
(* ================================================================== *)

(** C3: with the three required fields non-empty, [handleSubmit] rejects
    the submission (an alert, nothing else changed) if and only if the
    [hasMRI] flag is set and no scan is attached; the alert is then the
    MRI one.  Otherwise the analysis is started; in particular it is
    started whenever the flag is not set, whatever [mriFile] holds. *)
Theorem C3_mri_required_only_when_flagged (w : World) (f l e : string) :
  formData (ui w) !! "firstName" = Some (VStr f) ->
  formData (ui w) !! "lastName" = Some (VStr l) ->
  formData (ui w) !! "email" = Some (VStr e) ->
  f <> "" -> l <> "" -> e <> "" ->
  let hasMRI := truthy (formData (ui w) !! "hasMRI") in
  let attached := truthy (formData (ui w) !! "mriFile") in
  ((exists msg, rejectedWith msg w (run handleSubmit w)) <->
   hasMRI = true /\ attached = false) /\
  (hasMRI = true /\ attached = false ->
   rejectedWith "Please upload MRI image" w (run handleSubmit w)) /\
  (~ (hasMRI = true /\ attached = false) -> analysisStarted w (run handleSubmit w)) /\
  (hasMRI = false -> analysisStarted w (run handleSubmit w)).
Proof.
  intros Hf Hl He Hfn Hln Hen hasMRI attached.
  assert (Hreq : requiredMissing (formData (ui w)) = false).
  { unfold requiredMissing. rewrite Hf, Hl, He. cbn [truthy].
    destruct (String.eqb_spec f ""), (String.eqb_spec l ""), (String.eqb_spec e "");
      cbn; congruence. }
  assert (Hmri : mriMissing (formData (ui w)) = true <-> hasMRI = true /\ attached = false).
  { unfold mriMissing. fold hasMRI attached. destruct hasMRI, attached; cbn; intuition congruence. }
  destruct (handleSubmit_cases w) as [[Hm Hr] | [(_ & Hq & Hr) | (_ & Hq & Hr)]];
    [congruence | |].
  - apply Hmri in Hq. split; [|split; [|split]].
    + split; [intros _; exact Hq | intros _; now exists "Please upload MRI image"].
    + intros _. exact Hr.
    + intros Hn. now destruct Hn.
    + intros Hn. destruct Hq as [Hq _]. congruence.
  - assert (Hn : ~ (hasMRI = true /\ attached = false))
      by (intros H; apply Hmri in H; congruence).
    split; [|split; [|split]].
    + split; [|intros H; now destruct Hn].
      intros [msg H]. exfalso. eapply rejected_not_started; eassumption.
    + intros H. now destruct Hn.
    + intros _. exact Hr.
    + intros _. exact Hr.
Qed.

(** Flag set and no scan: rejected; flag not set and no scan: accepted. *)
Lemma C3_mri_required_only_when_flagged_witness :
  rejectedWith "Please upload MRI image" flaggedWorld (run handleSubmit flaggedWorld) /\
  analysisStarted filledWorld (run handleSubmit filledWorld).
Proof.
  split.
  - apply (C3_mri_required_only_when_flagged flaggedWorld "Ada" "Lovelace" "ada@example.org");
      try reflexivity; try discriminate. split; reflexivity.
  - apply (C3_mri_required_only_when_flagged filledWorld "Ada" "Lovelace" "ada@example.org");
      try reflexivity; discriminate.
Defined.

(** The stub resolves for every draw of the confidence. *)
Lemma simulateAnalysis_resolve_some (r1 r2 : float) :
  Math_random_range r2 = true ->
  exists n, 8000 <= n <= 10000 /\
    simulateAnalysis_resolve r1 r2 =
    Some {| status := if detected_of r1 then "Tumor Detected" else "No Tumor Detected";
            confidence := point2 (decimal n) ++ "%";
            detected := detected_of r1 |}.
Proof.
  intros H2. destruct (confidence_string_hundredths r2 H2) as (n & Hn & Hs).
  exists n. split; [exact Hn|]. unfold simulateAnalysis_resolve. rewrite Hs. reflexivity.
Qed.

Lemma simulateAnalysis_resolve_inv (r1 r2 : float) (res : AnalysisResult) :
  simulateAnalysis_resolve r1 r2 = Some res ->
  status res = (if detected_of r1 then "Tumor Detected" else "No Tumor Detected") /\
  detected res = detected_of r1 /\
  confidence_string r2 = Some (confidence res).
Proof.
  unfold simulateAnalysis_resolve.
  destruct (confidence_string r2) as [c|]; [|discriminate].
  cbn. intros [= <-]. repeat split.
Qed.

Lemma simulateAnalysis_resolve_consistent (r1 r2 : float) (res : AnalysisResult) :
  simulateAnalysis_resolve r1 r2 = Some res -> consistent res.
Proof.
  intros H. apply simulateAnalysis_resolve_inv in H as (Hs & Hd & _).
  unfold consistent. rewrite Hs, Hd.
  destruct (detected_of r1); repeat split; intros; congruence.
Qed.

(* ================================================================== *)
(** * C4: the shape of a result                                        *)
(* ================================================================== *)

(** C4: the stub produces a result whatever it draws, and the result
    carries one of two labels, the tumor verdict exactly when the first
    draw exceeds 0.5 and the negative verdict otherwise, with the boolean
    flag of that comparison and a confidence string that reads as a
    percentage: digits, a point, two digits and the percent sign. *)
Theorem C4_result_shape (r1 r2 : float) :
  Math_random_range r2 = true ->
  exists res n,
    simulateAnalysis_resolve r1 r2 = Some res /\
    (status res = "Tumor Detected" \/ status res = "No Tumor Detected") /\
    verdict_of_status (status res) =
      Some (if (0.5 <? r1)%float then tumor_detected else normal) /\
    detected res = (0.5 <? r1)%float /\
    confidence res = point2 (decimal n) ++ "%" /\
    percent_hundredths (confidence res) = Some n.
Proof.
  intros H2. destruct (simulateAnalysis_resolve_some r1 r2 H2) as (n & Hn & Hres).
  eexists _, n. split; [exact Hres|]. cbn [status detected confidence].
  unfold detected_of.
  split; [destruct (0.5 <? r1)%float; auto|].
  split; [destruct (0.5 <? r1)%float; reflexivity|].
  split; [reflexivity|]. split; [reflexivity|].
  now apply percent_hundredths_point2.
Qed.

(** The draws 0.75 and 0.25. *)
Lemma C4_result_shape_witness :
  Math_random_range 0.25 = true /\
  exists res n,
    simulateAnalysis_resolve 0.75 0.25 = Some res /\
    (status res = "Tumor Detected" \/ status res = "No Tumor Detected") /\
    verdict_of_status (status res) =
      Some (if (0.5 <? 0.75)%float then tumor_detected else normal) /\
    detected res = (0.5 <? 0.75)%float /\
    confidence res = point2 (decimal n) ++ "%" /\
    percent_hundredths (confidence res) = Some n.
Proof.
  split; [reflexivity|].
  apply (C4_result_shape 0.75 0.25). reflexivity.
Defined.

(** ** The result held by a reachable world *)

(** Only a timeout that runs changes the result. *)
Lemma step_analysisResult (ev : Event) (w w' : World) :
  step ev w = Some w' ->
  analysisResult (ui w') = analysisResult (ui w) \/
  exists r1 r2 res,
    ev = TimerFires r1 r2 /\ simulateAnalysis_resolve r1 r2 = Some res /\
    analysisResult (ui w') = Some res.
Proof.
  destruct ev as [e | files | | l | r1 r2 | d]; cbn [step].
  - destruct (bool_decide _); [|discriminate]. intros [= <-]. now left.
  - destruct (fileInputRendered (ui w)); [|discriminate]. intros [= <-]. left.
    destruct files as [|file files]; [now rewrite run_handleFileChange_none|].
    apply run_handleFileChange_some.
  - intros [= <-]. left.
    destruct (handleSubmit_cases w) as [[_ Hr] | [(_ & _ & Hr) | (_ & _ & Hr)]].
    + destruct Hr as (-> & _). reflexivity.
    + destruct Hr as (-> & _). reflexivity.
    + apply Hr.
  - intros H. apply step_Click in H as ->. now left.
  - intros H. apply step_TimerFires in H as (due & rest & res & _ & _ & _ & Hres & ->).
    right. now exists r1, r2, res.
  - destruct (0 <=? d); [|discriminate]. intros [= <-]. now left.
Qed.

Lemma reachable_consistent (w : World) :
  reachable w ->
  forall res, analysisResult (ui w) = Some res -> consistent res.
Proof.
  induction 1 as [|ev w w' Hw IH Hstep]; intros res Hres; [discriminate|].
  destruct (step_analysisResult ev w w' Hstep) as [Heq | (r1 & r2 & res' & _ & Hr & Heq)].
  - apply IH. congruence.
  - rewrite Heq in Hres. injection Hres as <-.
    now apply (simulateAnalysis_resolve_consistent r1 r2).
Qed.

(* ================================================================== *)
(** * C9: the flag and the label agree                                 *)
(* ================================================================== *)

(** C9: every result the stub resolves to, and every result held by the
    component in a reachable world, has its [detected] flag true exactly
    when its [status] is the tumor verdict and false exactly when it is the
    negative verdict. *)
Theorem C9_flag_matches_label :
  (forall r1 r2 res, simulateAnalysis_resolve r1 r2 = Some res ->
     (detected res = true <-> status res = "Tumor Detected") /\
     (detected res = false <-> status res = "No Tumor Detected")) /\
  (forall w res, reachable w -> analysisResult (ui w) = Some res ->
     (detected res = true <-> status res = "Tumor Detected") /\
     (detected res = false <-> status res = "No Tumor Detected")).
Proof.
  split.
  - intros r1 r2 res H. now apply (simulateAnalysis_resolve_consistent r1 r2).
  - intros w res Hw Hres. now apply (reachable_consistent w Hw).
Qed.

(** ** The pending timeouts *)

(** An event leaves the queue alone, adds one timeout at its end
    (a submission) or removes its head (the timeout that runs). *)
Lemma step_timers (ev : Event) (w w' : World) :
  step ev w = Some w' ->
  timers w' = timers w \/
  (ev = Submit /\ timers w' = (timers w ++ [now w + 3000])%list) \/
  (exists r1 r2 due, ev = TimerFires r1 r2 /\ timers w = due :: timers w').
Proof.
  destruct ev as [e | files | | l | r1 r2 | d]; cbn [step].
  - destruct (bool_decide _); [|discriminate]. intros [= <-]. now left.
  - destruct (fileInputRendered (ui w)); [|discriminate]. intros [= <-]. left.
    destruct files as [|file files]; [now rewrite run_handleFileChange_none|].
    apply run_handleFileChange_some.
  - intros [= <-].
    destruct (handleSubmit_cases w) as [[_ Hr] | [(_ & _ & Hr) | (_ & _ & Hr)]].
    + left. apply Hr.
    + left. apply Hr.
    + right. left. split; [reflexivity|]. apply Hr.
  - intros H. apply step_Click in H as ->. now left.
  - intros H. apply step_TimerFires in H as (due & rest & res & Ht & _ & _ & _ & ->).
    right. right. now exists r1, r2, due.
  - destruct (0 <=? d); [|discriminate]. intros [= <-]. now left.
Qed.

(** The clock never runs backwards. *)
Lemma step_now (ev : Event) (w w' : World) :
  step ev w = Some w' -> now w <= now w'.
Proof.
  destruct ev as [e | files | | l | r1 r2 | d]; cbn [step].
  - destruct (bool_decide _); [|discriminate]. intros [= <-]. reflexivity.
  - destruct (fileInputRendered (ui w)); [|discriminate]. intros [= <-].
    destruct files as [|file files]; [now rewrite run_handleFileChange_none|].
    destruct (run_handleFileChange_some file files w) as (_ & _ & _ & _ & -> & _).
    reflexivity.
  - intros [= <-].
    destruct (handleSubmit_cases w) as [[_ Hr] | [(_ & _ & Hr) | (_ & _ & Hr)]].
    + destruct Hr as (_ & -> & _). reflexivity.
    + destruct Hr as (_ & -> & _). reflexivity.
    + destruct Hr as (_ & _ & _ & _ & _ & _ & _ & -> & _). reflexivity.
  - intros H. apply step_Click in H as ->. reflexivity.
  - intros H. apply step_TimerFires in H as (due & rest & res & Ht & _ & _ & _ & ->).
    cbn. lia.
  - destruct (Z.leb_spec 0 d); [|discriminate]. intros [= <-]. cbn. lia.
Qed.

Lemma StronglySorted_snoc (l : list Z) (x : Z) :
  StronglySorted Z.le l -> Forall (fun y => y <= x) l ->
  StronglySorted Z.le (l ++ [x]).
Proof.
  induction 1 as [|y l Hl IH Hy]; intros Hx; cbn.
  - repeat constructor.
  - inversion Hx as [|? ? Hyx Hx']; subst. constructor; [now apply IH|].
    apply Forall_app. split; [exact Hy|]. now constructor.
Qed.

Lemma reachable_timersOrdered (w : World) : reachable w -> timersOrdered w.
Proof.
  induction 1 as [|ev w w' Hw [Hs Hb] Hstep].
  - split; constructor.
  - pose proof (step_now ev w w' Hstep) as Hnow. unfold timersOrdered.
    destruct (step_timers ev w w' Hstep)
      as [-> | [[_ ->] | (r1 & r2 & due & _ & Ht)]].
    + split; [exact Hs|]. eapply Forall_impl; [exact Hb|]. cbn. intros; lia.
    + split.
      * apply StronglySorted_snoc; [exact Hs|exact Hb].
      * apply Forall_app. split.
        -- eapply Forall_impl; [exact Hb|]. cbn. intros; lia.
        -- constructor; [lia|constructor].
    + rewrite Ht in Hs, Hb. inversion Hs; subst. inversion Hb; subst.
      split; [assumption|]. eapply Forall_impl; [eassumption|]. cbn. intros; lia.
Qed.

Lemma step_TimerFires_result (r1 r2 : float) (w w' : World) :
  step (TimerFires r1 r2) w = Some w' ->
  exists res, simulateAnalysis_resolve r1 r2 = Some res /\
              analysisResult (ui w') = Some res /\
              isAnalyzing (ui w') = false /\ showResults (ui w') = true.
Proof.
  intros H. apply step_TimerFires in H as (due & rest & res & _ & _ & _ & Hres & ->).
  exists res. repeat split. exact Hres.
Qed.

(* ================================================================== *)
(** * C5: the buttons of the results section                           *)
(* ================================================================== *)

(** C5 does not hold of the code: with a result on the page the results
    section renders the two buttons "Preview Result" and "Download PDF",
    but neither has a click handler.  Clicking either leaves the world as
    it is: no alert is shown and no file is produced. *)
Theorem C5_result_buttons_inert :
  reachable resultsWorld /\
  option_map (fun sec => List.map label (buttons sec)) (resultsSection (ui resultsWorld))
    = Some ["Preview Result"; "Download PDF"] /\
  (forall b, In b resultButtons -> onClick b = None) /\
  step (Click "Preview Result") resultsWorld = Some resultsWorld /\
  step (Click "Download PDF") resultsWorld = Some resultsWorld /\
  alerts resultsWorld = [] /\ objectURLs resultsWorld = 0%nat.
Proof.
  split.
  { apply (reachable_steps [Submit; TimerFires 0.75 0.25] filledWorld);
      [apply filledWorld_reachable | vm_compute; reflexivity]. }
  split; [vm_compute; reflexivity|].
  split; [intros b Hb; now apply (click_resultButtons b initialWorld)|].
  repeat split; vm_compute; reflexivity.
Qed.

(* ================================================================== *)
(** * C6: no guard against a second submission                         *)
(* ================================================================== *)

(** C6: one second after a first submission the world is reachable with an
    analysis pending and the button reading "Analyzing..."; a second
    submission is accepted there and leaves two timeouts pending.  When
    both have run, the result on the page is the one of the second to
    run, whatever the draws.  In every world a valid form starts an
    analysis whether or not one is pending, every resolution overwrites
    the result, and a pending timeout leaves the queue only by running:
    no event cancels it or times it out. *)
Theorem C6_no_submission_guard :
  reachable laterWorld /\ isAnalyzing (ui laterWorld) = true /\
  submitLabel (ui laterWorld) = "Analyzing..." /\ timers laterWorld = [3000] /\
  step Submit laterWorld = Some secondWorld /\
  timers secondWorld = [3000; 4000] /\ alerts secondWorld = [] /\
  (exists wb, steps [TimerFires 0.75 0.25; TimerFires 0.25 0.75] secondWorld = Some wb /\
     analysisResult (ui wb) =
       Some {| status := "No Tumor Detected"; confidence := "95.00%";
               detected := false |}) /\
  (forall r1 r2 r3 r4 wa wb,
     step (TimerFires r1 r2) secondWorld = Some wa ->
     step (TimerFires r3 r4) wa = Some wb ->
     analysisResult (ui wb) = simulateAnalysis_resolve r3 r4 /\
     showResults (ui wb) = true /\ timers wb = []) /\
  (forall w, requiredMissing (formData (ui w)) = false ->
             mriMissing (formData (ui w)) = false ->
             timers (run handleSubmit w) = (timers w ++ [now w + 3000])%list) /\
  (forall w r1 r2 w', step (TimerFires r1 r2) w = Some w' ->
     analysisResult (ui w') = simulateAnalysis_resolve r1 r2 /\
     showResults (ui w') = true) /\
  (forall ev w w', step ev w = Some w' ->
     timers w' = timers w \/
     timers w' = (timers w ++ [now w + 3000])%list \/
     exists r1 r2 due, ev = TimerFires r1 r2 /\ timers w = due :: timers w').
Proof.
  assert (Ht2 : timers secondWorld = [3000; 4000]) by (vm_compute; reflexivity).
  split.
  { apply (reachable_steps [Submit; Elapse 1000] filledWorld);
      [apply filledWorld_reachable | vm_compute; reflexivity]. }
  do 3 (split; [vm_compute; reflexivity|]).
  split; [vm_compute; reflexivity|].
  split; [exact Ht2|]. split; [vm_compute; reflexivity|].
  split.
  { eexists. split; vm_compute; reflexivity. }
  split.
  { intros r1 r2 r3 r4 wa wb Ha Hb.
    apply step_TimerFires in Ha as (due & rest & res & Ht & _ & _ & _ & ->).
    rewrite Ht2 in Ht. injection Ht as <- <-.
    apply step_TimerFires in Hb as (due' & rest' & res' & Ht' & _ & _ & Hres & ->).
    cbn [timers] in Ht'. injection Ht' as <- <-.
    cbn [ui analysisResult showResults timers]. rewrite Hres.
    split; [reflexivity|]. split; reflexivity. }
  split.
  { intros w Hreq Hmri.
    destruct (handleSubmit_cases w) as [[Hm _] | [(_ & Hq & _) | (_ & _ & Hr)]];
      [congruence | congruence | apply Hr]. }
  split.
  { intros w r1 r2 w' H.
    apply step_TimerFires_result in H as (res & -> & -> & _ & ->). now split. }
  intros ev w w' H.
  destruct (step_timers ev w w' H) as [Ht | [[_ Ht] | Ht]]; auto.
Qed.

(** ** Timeouts that run *)

(** A pending timeout can always run: with draws in range the oldest one
    fires, at its due time or later, and stores the result it resolves
    to. *)
Lemma step_TimerFires_enabled (r1 r2 : float) (w : World) (due : Z) (rest : list Z) :
  timers w = due :: rest ->
  Math_random_range r1 = true -> Math_random_range r2 = true ->
  exists res,
    simulateAnalysis_resolve r1 r2 = Some res /\
    step (TimerFires r1 r2) w =
    Some {| ui := {| formData := formData (ui w); mriPreview := mriPreview (ui w);
                     isAnalyzing := false; showResults := true;
                     analysisResult := Some res |};
            now := Z.max (now w) due; timers := rest; alerts := alerts w;
            objectURLs := objectURLs w |}.
Proof.
  intros Ht H1 H2.
  destruct (simulateAnalysis_resolve_some r1 r2 H2) as (n & _ & Hres).
  eexists. split; [exact Hres|].
  cbn [step]. rewrite Ht, H1, H2, Hres. reflexivity.
Qed.

Lemma steps_app (evs1 evs2 : list Event) : forall w : World,
  steps (evs1 ++ evs2) w = w1 ← steps evs1 w; steps evs2 w1.
Proof.
  induction evs1 as [|ev evs1 IH]; intros w; cbn [app steps]; [reflexivity|].
  destruct (step ev w) as [w1|]; cbn [mbind option_bind]; [apply IH|reflexivity].
Qed.

Lemma steps_fire_timers (draws : list (float * float)) : forall w w' : World,
  steps (fire draws) w = Some w' ->
  timers w' = drop (length draws) (timers w) /\ alerts w' = alerts w /\
  formData (ui w') = formData (ui w).
Proof.
  induction draws as [|d draws IH]; intros w w'; cbn [fire List.map steps length].
  - intros [= <-]. now rewrite drop_0.
  - destruct (step (TimerFires d.1 d.2) w) as [w1|] eqn:Hs; [|discriminate].
    cbn [mbind option_bind]. intros H. apply IH in H as (Ht & Ha & Hf).
    apply step_TimerFires in Hs as (due & rest & res & Htw & _ & _ & _ & ->).
    cbn [timers alerts ui formData] in *. rewrite Htw. cbn [drop]. auto.
Qed.

(** Draws in range, one pair for each timeout that runs. *)
Lemma steps_fire_enabled (draws : list (float * float)) : forall w : World,
  Forall drawsInRange draws ->
  (length draws <= length (timers w))%nat ->
  exists w', steps (fire draws) w = Some w'.
Proof.
  induction draws as [|d draws IH]; intros w Hr Hlen; cbn [fire List.map steps].
  - now exists w.
  - inversion Hr as [|? ? [H1 H2] Hr']; subst.
    destruct (timers w) as [|due rest] eqn:Ht; [cbn in Hlen; lia|].
    destruct (step_TimerFires_enabled d.1 d.2 w due rest Ht H1 H2) as (res & _ & ->).
    cbn [mbind option_bind]. apply IH; [exact Hr'|]. cbn [timers]. cbn in Hlen. lia.
Qed.

(** After a run of timeouts the page holds the result of the last. *)
Lemma steps_fire_last (draws : list (float * float)) (d : float * float) (w w' : World) :
  steps (fire (draws ++ [d])) w = Some w' ->
  analysisResult (ui w') = simulateAnalysis_resolve d.1 d.2 /\
  showResults (ui w') = true /\
  timers w' = drop (S (length draws)) (timers w).
Proof.
  unfold fire. rewrite map_app, steps_app. fold (fire draws).
  destruct (steps (fire draws) w) as [w1|] eqn:H1; [|discriminate].
  cbn [mbind option_bind List.map steps].
  destruct (step (TimerFires d.1 d.2) w1) as [w2|] eqn:H2; [|discriminate].
  cbn [mbind option_bind]. intros [= <-].
  apply steps_fire_timers in H1 as (Ht & _).
  apply step_TimerFires in H2 as (due & rest & res & Htw & _ & _ & Hres & ->).
  cbn [ui analysisResult showResults timers].
  split; [now rewrite Hres|]. split; [reflexivity|].
  rewrite Ht in Htw.
  replace (S (length draws)) with (length draws + 1)%nat by lia.
  rewrite <- drop_drop, Htw. reflexivity.
Qed.

(* ================================================================== *)
(** * C7: the delay of the stub                                        *)
(* ================================================================== *)

(** C7: [simulateAnalysis] always schedules its callback 3000 ms ahead;
    whenever [handleSubmit] adds a timeout, its due time is exactly
    3000 ms after the submission, which lies between 2000 and 3000 ms.
    The stub does resolve: a pending timeout runs for every pair of draws,
    never before it is due, and stores its result on the page.  For a
    submission that passes both guards with nothing else pending, the
    result is on the page 3000 ms after the submission when the timeout
    runs on time, and never earlier. *)
Theorem C7_fixed_delay :
  (forall w, timers (run simulateAnalysis w) = (timers w ++ [now w + 3000])%list) /\
  (forall w due, timers (run handleSubmit w) = (timers w ++ [due])%list ->
     due - now w = 3000 /\ 2000 <= due - now w <= 3000) /\
  (forall w r1 r2 w' due rest,
     timers w = due :: rest -> step (TimerFires r1 r2) w = Some w' ->
     due <= now w') /\
  (forall w due rest r1 r2,
     timers w = due :: rest ->
     Math_random_range r1 = true -> Math_random_range r2 = true ->
     exists res w',
       simulateAnalysis_resolve r1 r2 = Some res /\
       step (TimerFires r1 r2) w = Some w' /\
       analysisResult (ui w') = Some res /\ showResults (ui w') = true /\
       now w' = Z.max (now w) due) /\
  (forall w d r1 r2,
     requiredMissing (formData (ui w)) = false ->
     mriMissing (formData (ui w)) = false ->
     timers w = [] -> 0 <= d ->
     Math_random_range r1 = true -> Math_random_range r2 = true ->
     exists res w',
       simulateAnalysis_resolve r1 r2 = Some res /\
       steps [Elapse d; TimerFires r1 r2] (run handleSubmit w) = Some w' /\
       analysisResult (ui w') = Some res /\ showResults (ui w') = true /\
       now w' = Z.max (now w + d) (now w + 3000) /\
       (d <= 3000 -> now w' = now w + 3000)) /\
  timers (run handleSubmit filledWorld) = [3000] /\
  timers (run handleSubmit laterWorld) = [3000; 4000].
Proof.
  split; [reflexivity|]. split; [|split; [|split; [|split]]].
  - intros w due H.
    destruct (handleSubmit_cases w) as [[_ Hr] | [(_ & _ & Hr) | (_ & _ & Hr)]].
    + destruct Hr as (_ & _ & Ht & _). rewrite Ht in H.
      symmetry in H. now apply append_singleton_neq in H.
    + destruct Hr as (_ & _ & Ht & _). rewrite Ht in H.
      symmetry in H. now apply append_singleton_neq in H.
    + destruct Hr as (_ & _ & _ & _ & _ & Ht & _). rewrite Ht in H.
      apply app_inj_tail in H as [_ <-]. lia.
  - intros w r1 r2 w' due rest Ht H.
    apply step_TimerFires in H as (due' & rest' & res & Ht' & _ & _ & _ & ->).
    rewrite Ht in Ht'. injection Ht' as <- <-. cbn [now]. lia.
  - intros w due rest r1 r2 Ht H1 H2.
    destruct (step_TimerFires_enabled r1 r2 w due rest Ht H1 H2) as (res & Hres & Hs).
    eexists res, _. split; [exact Hres|]. split; [exact Hs|]. repeat split.
  - intros w d r1 r2 Hreq Hmri Ht Hd H1 H2.
    destruct (handleSubmit_cases w) as [[Hm _] | [(_ & Hq & _) | (_ & _ & Hr)]];
      [congruence | congruence |].
    destruct Hr as (_ & _ & _ & _ & _ & Ht1 & _ & Hn1 & _).
    rewrite Ht in Ht1. cbn [app] in Ht1.
    set (w1 := run handleSubmit w) in *.
    set (w2 := {| ui := ui w1; now := now w1 + d; timers := timers w1;
                  alerts := alerts w1; objectURLs := objectURLs w1 |}).
    destruct (step_TimerFires_enabled r1 r2 w2 (now w + 3000) [] Ht1 H1 H2)
      as (res & Hres & Hs).
    eexists res, _. split; [exact Hres|]. split.
    { cbn [steps].
      change (step (Elapse d) w1) with (if 0 <=? d then Some w2 else None).
      destruct (Z.leb_spec 0 d); [|lia].
      cbn [mbind option_bind]. rewrite Hs. reflexivity. }
    unfold w2. cbn [ui analysisResult showResults now]. rewrite Hn1.
    repeat split. lia.
  - split; vm_compute; reflexivity.
Qed.

(* ================================================================== *)
(** * C8: the form starts empty, the result is transient               *)
(* ================================================================== *)

(** C8: on page load every text field is the empty string, the flag is
    false, no scan is attached and there is no result.  The result is held
    only in the component's state.  A submission that passes both guards
    of [handleSubmit] keeps the previous result, hidden, while its timeout
    is pending; once the timeouts pending before it and its own have run,
    the result on the page is the one of this submission, whatever was
    there before.  Each resolution of the stub replaces the result and no
    other event changes it. *)
Theorem C8_created_empty_and_transient :
  (forall k, In k ["firstName"; "lastName"; "age"; "phone"; "email"; "symptoms"] ->
     formData (ui initialWorld) !! k = Some (VStr "")) /\
  formData (ui initialWorld) !! "hasMRI" = Some (VBool false) /\
  formData (ui initialWorld) !! "mriFile" = Some VNull /\
  mriPreview (ui initialWorld) = None /\
  analysisResult (ui initialWorld) = None /\
  (forall w r1 r2 w', step (TimerFires r1 r2) w = Some w' ->
     exists res, simulateAnalysis_resolve r1 r2 = Some res /\
                 analysisResult (ui w') = Some res) /\
  (forall ev w w', step ev w = Some w' ->
     analysisResult (ui w') <> analysisResult (ui w) ->
     exists r1 r2, ev = TimerFires r1 r2) /\
  (forall w draws d,
     requiredMissing (formData (ui w)) = false ->
     mriMissing (formData (ui w)) = false ->
     length draws = length (timers w) ->
     Forall drawsInRange (draws ++ [d]) ->
     analysisResult (ui (run handleSubmit w)) = analysisResult (ui w) /\
     showResults (ui (run handleSubmit w)) = false /\
     exists res w',
       simulateAnalysis_resolve d.1 d.2 = Some res /\
       steps (fire (draws ++ [d])) (run handleSubmit w) = Some w' /\
       analysisResult (ui w') = Some res /\ showResults (ui w') = true /\
       timers w' = []) /\
  (exists w',
     steps [Submit; TimerFires 0.25 0.75] resultsWorld = Some w' /\
     analysisResult (ui resultsWorld) =
       Some {| status := "Tumor Detected"; confidence := "85.00%"; detected := true |} /\
     analysisResult (ui w') =
       Some {| status := "No Tumor Detected"; confidence := "95.00%";
               detected := false |}).
Proof.
  split.
  { intros k Hk. cbn in Hk.
    destruct Hk as [<- | [<- | [<- | [<- | [<- | [<- | []]]]]]]; vm_compute; reflexivity. }
  do 4 (split; [vm_compute; reflexivity|]).
  split; [|split; [|split]].
  - intros w r1 r2 w' H.
    apply step_TimerFires_result in H as (res & Hres & Ha & _). now exists res.
  - intros ev w w' H Hne.
    destruct (step_analysisResult ev w w' H) as [Heq | (r1 & r2 & _ & -> & _)];
      [contradiction|]. now exists r1, r2.
  - intros w draws d Hreq Hmri Hlen Hr.
    destruct (handleSubmit_cases w) as [[Hm _] | [(_ & Hq & _) | (_ & _ & Hs)]];
      [congruence | congruence |].
    destruct Hs as (_ & Hshow & _ & _ & Hres & Ht & _).
    split; [exact Hres|]. split; [exact Hshow|].
    destruct (steps_fire_enabled (draws ++ [d]) (run handleSubmit w) Hr) as [w' Hw'].
    { rewrite Ht, !length_app, Hlen. reflexivity. }
    apply Forall_app in Hr as [_ Hd]. inversion Hd as [|? ? [_ Hd2] _]; subst.
    destruct (simulateAnalysis_resolve_some d.1 d.2 Hd2) as (n & _ & Hn).
    destruct (steps_fire_last draws d _ w' Hw') as (Ha & Hsh & Htm).
    eexists _, w'. split; [exact Hn|]. split; [exact Hw'|].
    split; [now rewrite Ha|]. split; [exact Hsh|].
    rewrite Htm, Ht. apply drop_ge. rewrite length_app, Hlen. cbn. lia.
  - eexists. repeat split; vm_compute; reflexivity.
Qed.

(* ================================================================== *)
(** * C10: what the change handlers leave alone                        *)
(* ================================================================== *)

(** C10: [handleInputChange] stores under the name of the changed input
    its [checked] boolean when it is a checkbox and its string [value]
    otherwise; every other property of the form, the other state cells and
    the rest of the world are unchanged.  [handleFileChange] without a
    selected file changes nothing at all.  A change of the [hasMRI] input,
    unchecking included, leaves [mriFile] as it is. *)
Theorem C10_handlers_frame (e : Target) (w : World) :
  let w' := run (handleInputChange e) w in
  formData (ui w') !! name e =
    Some (if String.eqb (type e) "checkbox" then VBool (checked e) else VStr (value e)) /\
  (forall k, k <> name e -> formData (ui w') !! k = formData (ui w) !! k) /\
  (mriPreview (ui w') = mriPreview (ui w) /\ isAnalyzing (ui w') = isAnalyzing (ui w) /\
   showResults (ui w') = showResults (ui w) /\
   analysisResult (ui w') = analysisResult (ui w) /\
   now w' = now w /\ timers w' = timers w /\ alerts w' = alerts w /\
   objectURLs w' = objectURLs w) /\
  run (handleFileChange []) w = w /\
  (name e = "hasMRI" -> formData (ui w') !! "mriFile" = formData (ui w) !! "mriFile").
Proof.
  cbn zeta. rewrite run_handleInputChange. cbn [ui formData].
  split; [apply lookup_insert_eq|].
  split; [intros k Hk; now apply lookup_insert_ne|].
  split; [repeat split|].
  split; [apply run_handleFileChange_none|].
  intros Hn. apply lookup_insert_ne. rewrite Hn. discriminate.
Qed.

(** Checking the flag, attaching a scan and unchecking the flag again
    leaves the scan attached. *)
Example uncheck_keeps_file :
  exists w, steps [checkboxChange "hasMRI" true;
                   FileChange [ {| file_name := "scan.png"; file_type := "image/png" |} ];
                   checkboxChange "hasMRI" false] initialWorld = Some w /\
            formData (ui w) !! "hasMRI" = Some (VBool false) /\
            formData (ui w) !! "mriFile" =
              Some (VFile {| file_name := "scan.png"; file_type := "image/png" |}) /\
            mriPreview (ui w) = Some "blob:0".
Proof. eexists. split; [vm_compute; reflexivity|]. repeat split. Qed.

(* ================================================================== *)
(** * Further properties of the handlers and the page                  *)
(* ================================================================== *)

(** ** One event, case by case *)

Lemma step_cases (ev : Event) (w w' : World) :
  step ev w = Some w' ->
  (exists e, ev = Change e /\ (name e, type e) ∈ formInputs /\
             w' = run (handleInputChange e) w) \/
  (exists files, ev = FileChange files /\ fileInputRendered (ui w) = true /\
                 w' = run (handleFileChange files) w) \/
  (ev = Submit /\ w' = run handleSubmit w) \/
  (exists l, ev = Click l /\ w' = w) \/
  (exists r1 r2 due rest res,
     ev = TimerFires r1 r2 /\ timers w = due :: rest /\
     Math_random_range r1 = true /\ Math_random_range r2 = true /\
     simulateAnalysis_resolve r1 r2 = Some res /\
     w' = {| ui := {| formData := formData (ui w); mriPreview := mriPreview (ui w);
                      isAnalyzing := false; showResults := true;
                      analysisResult := Some res |};
             now := Z.max (now w) due; timers := rest; alerts := alerts w;
             objectURLs := objectURLs w |}) \/
  (exists d, ev = Elapse d /\ 0 <= d /\
     w' = {| ui := ui w; now := now w + d; timers := timers w;
             alerts := alerts w; objectURLs := objectURLs w |}).
Proof.
  destruct ev as [e | files | | l | r1 r2 | d]; cbn [step].
  - destruct (bool_decide _) eqn:Hin; [|discriminate]. intros [= <-].
    left. exists e. apply bool_decide_eq_true in Hin. auto.
  - destruct (fileInputRendered (ui w)) eqn:Hf; [|discriminate]. intros [= <-].
    right. left. exists files. auto.
  - intros [= <-]. right. right. left. auto.
  - intros H. apply step_Click in H. right. right. right. left. exists l. auto.
  - intros H. apply step_TimerFires in H as (due & rest & res & Ht & H1 & H2 & Hres & ->).
    do 4 right. left. exists r1, r2, due, rest, res. auto 10.
  - destruct (Z.leb_spec 0 d); [|discriminate]. intros [= <-].
    do 5 right. exists d. auto.
Qed.

(** The whole effect of [handleFileChange] with a file selected. *)
Lemma run_handleFileChange_file (file : File) (files : list File) (w : World) :
  run (handleFileChange (file :: files)) w =
  if String.prefix "image/" (file_type file) then
    {| ui := {| formData := <["mriFile" := VFile file]> (formData (ui w));
                mriPreview := Some ("blob:" ++ decimal (Z.of_nat (objectURLs w)));
                isAnalyzing := isAnalyzing (ui w); showResults := showResults (ui w);
                analysisResult := analysisResult (ui w) |};
       now := now w; timers := timers w; alerts := alerts w;
       objectURLs := S (objectURLs w) |}
  else
    {| ui := {| formData := <["mriFile" := VFile file]> (formData (ui w));
                mriPreview := mriPreview (ui w);
                isAnalyzing := isAnalyzing (ui w); showResults := showResults (ui w);
                analysisResult := analysisResult (ui w) |};
       now := now w; timers := timers w; alerts := alerts w;
       objectURLs := objectURLs w |}.
Proof.
  unfold handleFileChange, run. cbn [lookup list_lookup].
  unfold mbind, M_bind. cbn -[String.prefix decimal].
  destruct (String.prefix "image/" (file_type file)); reflexivity.
Qed.

(** The whole effect of [handleSubmit]. *)
Lemma run_handleSubmit (w : World) :
  run handleSubmit w =
  if requiredMissing (formData (ui w)) then run (alert "Please fill all required fields") w
  else if mriMissing (formData (ui w)) then run (alert "Please upload MRI image") w
  else {| ui := {| formData := formData (ui w); mriPreview := mriPreview (ui w);
                   isAnalyzing := true; showResults := false;
                   analysisResult := analysisResult (ui w) |};
          now := now w; timers := (timers w ++ [now w + 3000])%list;
          alerts := alerts w; objectURLs := objectURLs w |}.
Proof.
  unfold handleSubmit, requiredMissing, mriMissing, run.
  unfold mbind, M_bind, getState. cbn beta iota.
  destruct (negb (truthy (formData (ui w) !! "firstName"))
            || negb (truthy (formData (ui w) !! "lastName"))
            || negb (truthy (formData (ui w) !! "email"))); [reflexivity|].
  destruct (truthy (formData (ui w) !! "hasMRI")
            && negb (truthy (formData (ui w) !! "mriFile"))); reflexivity.
Qed.

(** ** Invariants of the reachable worlds *)

Lemma formTyped_initial : formTyped initialFormData.
Proof.
  split; [|split; [|split]].
  - unfold initialFormData, formKeys. rewrite !dom_insert_L, dom_empty_L. set_solver.
  - intros k Hk. exists "". cbn in Hk.
    destruct Hk as [<- | [<- | [<- | [<- | [<- | [<- | []]]]]]]; vm_compute; reflexivity.
  - exists false. vm_compute. reflexivity.
  - left. vm_compute. reflexivity.
Qed.

Lemma dom_insert_formKeys (fd : gmap string jsval) (k : string) (v : jsval) :
  k ∈ formKeys -> dom fd = formKeys -> dom (<[k := v]> fd) = formKeys.
Proof.
  intros Hk Hdom. rewrite dom_insert_L, Hdom.
  apply subseteq_union_1_L. now apply singleton_subseteq_l.
Qed.

Lemma formTyped_insert_input (fd : gmap string jsval) (e : Target) :
  (name e, type e) ∈ formInputs -> formTyped fd ->
  formTyped (<[name e := if String.eqb (type e) "checkbox" then VBool (checked e)
                         else VStr (value e)]> fd).
Proof.
  intros Hin. unfold formInputs in Hin.
  destruct e as [n v t c]. cbn [name type value checked] in *.
  assert (Hcases :
    (n ∈ ["firstName"; "lastName"; "age"; "phone"; "email"; "symptoms"] /\
     String.eqb t "checkbox" = false) \/
    (n = "hasMRI" /\ t = "checkbox")).
  { repeat (apply elem_of_cons in Hin as [Hin | Hin]);
      try (injection Hin as -> ->;
           first [left; split; [rewrite !elem_of_cons; tauto | reflexivity]
                 | right; split; reflexivity]).
    now apply elem_of_nil in Hin. }
  clear Hin. intros (Hdom & Hstr & Hflag & Hfile).
  destruct Hcases as [[Hn ->] | [-> ->]].
  - split; [|split; [|split]].
    + apply dom_insert_formKeys; [|exact Hdom]. unfold formKeys.
      rewrite !elem_of_cons, elem_of_nil in Hn.
      destruct Hn as [-> | [-> | [-> | [-> | [-> | [-> | []]]]]]]; set_solver.
    + intros k Hk. destruct (decide (k = n)) as [-> | Hne].
      * exists v. apply lookup_insert_eq.
      * rewrite lookup_insert_ne by congruence. now apply Hstr.
    + rewrite lookup_insert_ne; [exact Hflag|]. intros ->.
      rewrite !elem_of_cons, elem_of_nil in Hn. intuition discriminate.
    + rewrite lookup_insert_ne; [exact Hfile|]. intros ->.
      rewrite !elem_of_cons, elem_of_nil in Hn. intuition discriminate.
  - cbn [String.eqb Ascii.eqb Bool.eqb]. split; [|split; [|split]].
    + apply dom_insert_formKeys; [|exact Hdom]. unfold formKeys. set_solver.
    + intros k Hk. rewrite lookup_insert_ne; [now apply Hstr|].
      intros <-. cbn in Hk. intuition discriminate.
    + exists c. apply lookup_insert_eq.
    + rewrite lookup_insert_ne by discriminate. exact Hfile.
Qed.

Lemma formTyped_insert_file (fd : gmap string jsval) (file : File) :
  formTyped fd -> formTyped (<["mriFile" := VFile file]> fd).
Proof.
  intros (Hdom & Hstr & Hflag & Hfile). split; [|split; [|split]].
  - apply dom_insert_formKeys; [|exact Hdom]. unfold formKeys. set_solver.
  - intros k Hk. rewrite lookup_insert_ne; [now apply Hstr|].
    intros <-. cbn in Hk. intuition discriminate.
  - rewrite lookup_insert_ne by discriminate. exact Hflag.
  - right. exists file. apply lookup_insert_eq.
Qed.

(** X1: in every reachable world the form has exactly the eight
    properties it was created with; the six text inputs hold strings, the
    flag holds a boolean and the scan is [null] or a file.  The computed
    key of [handleInputChange] never adds a property and never stores a
    value of another kind. *)
Theorem X1_form_typed (w : World) : reachable w -> formTyped (formData (ui w)).
Proof.
  induction 1 as [|ev w w' Hw IH Hstep]; [apply formTyped_initial|].
  destruct (step_formData ev w w' Hstep) as [-> | [(e & Hin & ->) | (file & ->)]].
  - exact IH.
  - now apply formTyped_insert_input.
  - now apply formTyped_insert_file.
Qed.

Lemma X1_form_typed_witness : formTyped (formData (ui flaggedWorld)).
Proof.
  apply (X1_form_typed flaggedWorld).
  apply (reachable_steps [checkboxChange "hasMRI" true] filledWorld);
    [apply filledWorld_reachable | vm_compute; reflexivity].
Defined.

(** X2: in every reachable world, while [isAnalyzing] is set the results
    are hidden and at least one timeout is pending, and when [showResults]
    is set there is a result to show. *)
Theorem X2_ui_coherent (w : World) : reachable w -> uiCoherent w.
Proof.
  induction 1 as [|ev w w' Hw [IHa IHs] Hstep]; [split; discriminate|].
  apply step_cases in Hstep
    as [(e & -> & Hin & ->) | [(files & -> & Hfr & ->) | [(-> & ->) | [(l & -> & ->)
       | [(r1 & r2 & due & rest & res & -> & Ht & H1 & H2 & Hres & ->)
       | (d & -> & Hd & ->)]]]]]; unfold uiCoherent.
  - rewrite run_handleInputChange. cbn [ui isAnalyzing showResults analysisResult timers].
    now split.
  - destruct files as [|file files]; [rewrite run_handleFileChange_none; now split|].
    rewrite run_handleFileChange_file.
    destruct (String.prefix "image/" (file_type file));
      cbn [ui isAnalyzing showResults analysisResult timers]; now split.
  - rewrite run_handleSubmit.
    destruct (requiredMissing (formData (ui w))); [now split|].
    destruct (mriMissing (formData (ui w))); [now split|].
    cbn [ui isAnalyzing showResults analysisResult timers]. split.
    + intros _. split; [reflexivity|]. intros Hnil. now apply app_eq_nil in Hnil as [_ ?].
    + discriminate.
  - now split.
  - cbn [ui isAnalyzing showResults analysisResult timers]. split; [discriminate|].
    intros _. now exists res.
  - cbn [ui timers]. now split.
Qed.

Lemma X2_ui_coherent_witness : uiCoherent secondWorld.
Proof.
  apply (X2_ui_coherent secondWorld).
  apply (reachable_steps [Submit; Elapse 1000; Submit] filledWorld);
    [apply filledWorld_reachable | vm_compute; reflexivity].
Defined.

(** X3: on a page loaded at time 0 the clock never runs backwards, every
    pending timeout is due at 3000 ms or later, and a result is on the
    page only from 3000 ms on. *)
Theorem X3_no_result_before_three_seconds (w : World) :
  reachable w -> clockSound w.
Proof.
  induction 1 as [|ev w w' Hw (IHn & IHt & IHr) Hstep].
  { split; [reflexivity|]. split; [constructor|]. intros H. now destruct H. }
  apply step_cases in Hstep
    as [(e & -> & Hin & ->) | [(files & -> & Hfr & ->) | [(-> & ->) | [(l & -> & ->)
       | [(r1 & r2 & due & rest & res & -> & Ht & H1 & H2 & Hres & ->)
       | (d & -> & Hd & ->)]]]]]; unfold clockSound.
  - rewrite run_handleInputChange. cbn [ui analysisResult timers now]. auto.
  - destruct files as [|file files]; [rewrite run_handleFileChange_none; auto|].
    rewrite run_handleFileChange_file.
    destruct (String.prefix "image/" (file_type file));
      cbn [ui analysisResult timers now]; auto.
  - rewrite run_handleSubmit.
    destruct (requiredMissing (formData (ui w))); [cbn; auto|].
    destruct (mriMissing (formData (ui w))); [cbn; auto|].
    cbn [ui analysisResult timers now]. split; [exact IHn|]. split; [|exact IHr].
    apply Forall_app. split; [exact IHt|]. constructor; [lia|constructor].
  - auto.
  - cbn [ui analysisResult timers now]. rewrite Ht in IHt.
    inversion IHt as [|? ? Hdue Hrest]; subst.
    split; [lia|]. split; [exact Hrest|]. intros _. lia.
  - cbn [ui analysisResult timers now]. split; [lia|]. split; [exact IHt|].
    intros H. specialize (IHr H). lia.
Qed.

Lemma X3_no_result_before_three_seconds_witness : clockSound resultsWorld.
Proof.
  apply (X3_no_result_before_three_seconds resultsWorld).
  apply (reachable_steps [Submit; TimerFires 0.75 0.25] filledWorld);
    [apply filledWorld_reachable | vm_compute; reflexivity].
Defined.

(** X4: the only dialogs the page ever shows are the two messages of
    [handleSubmit]. *)
Theorem X4_only_two_alerts (w : World) :
  reachable w ->
  Forall (fun msg => msg = "Please fill all required fields" \/
                     msg = "Please upload MRI image") (alerts w).
Proof.
  induction 1 as [|ev w w' Hw IH Hstep]; [constructor|].
  apply step_cases in Hstep
    as [(e & -> & Hin & ->) | [(files & -> & Hfr & ->) | [(-> & ->) | [(l & -> & ->)
       | [(r1 & r2 & due & rest & res & -> & Ht & H1 & H2 & Hres & ->)
       | (d & -> & Hd & ->)]]]]].
  - rewrite run_handleInputChange. exact IH.
  - destruct files as [|file files]; [now rewrite run_handleFileChange_none|].
    rewrite run_handleFileChange_file.
    destruct (String.prefix "image/" (file_type file)); exact IH.
  - rewrite run_handleSubmit.
    destruct (requiredMissing (formData (ui w))).
    { cbn. apply Forall_app. split; [exact IH|]. constructor; [now left|constructor]. }
    destruct (mriMissing (formData (ui w))).
    { cbn. apply Forall_app. split; [exact IH|]. constructor; [now right|constructor]. }
    exact IH.
  - exact IH.
  - exact IH.
  - exact IH.
Qed.

Lemma rejectedWorld_reachable : reachable rejectedWorld.
Proof.
  apply (reachable_steps
           (Submit :: fillRequired ++ [checkboxChange "hasMRI" true; Submit])%list
           initialWorld); [constructor | vm_compute; reflexivity].
Qed.

Lemma X4_only_two_alerts_witness :
  Forall (fun msg => msg = "Please fill all required fields" \/
                     msg = "Please upload MRI image") (alerts rejectedWorld).
Proof. apply (X4_only_two_alerts rejectedWorld). apply rejectedWorld_reachable. Defined.

(** ** The result on the page *)

Lemma simulateAnalysis_resolve_sound (r1 r2 : float) (res : AnalysisResult) :
  Math_random_range r2 = true ->
  simulateAnalysis_resolve r1 r2 = Some res -> resultSound res.
Proof.
  intros H2 Hres. split; [now apply (simulateAnalysis_resolve_consistent r1 r2)|].
  destruct (simulateAnalysis_resolve_some r1 r2 H2) as (n & Hn & Heq).
  rewrite Heq in Hres. injection Hres as <-. now exists n.
Qed.

Lemma reachable_resultSound (w : World) :
  reachable w -> forall res, analysisResult (ui w) = Some res -> resultSound res.
Proof.
  induction 1 as [|ev w w' Hw IH Hstep]; intros res Hres; [discriminate|].
  apply step_cases in Hstep
    as [(e & -> & Hin & ->) | [(files & -> & Hfr & ->) | [(-> & ->) | [(l & -> & ->)
       | [(r1 & r2 & due & rest & res' & -> & Ht & H1 & H2 & Hr & ->)
       | (d & -> & Hd & ->)]]]]].
  - rewrite run_handleInputChange in Hres. now apply IH.
  - destruct files as [|file files]; [rewrite run_handleFileChange_none in Hres; now apply IH|].
    rewrite run_handleFileChange_file in Hres.
    destruct (String.prefix "image/" (file_type file)); now apply IH.
  - rewrite run_handleSubmit in Hres.
    destruct (requiredMissing (formData (ui w))); [now apply IH|].
    destruct (mriMissing (formData (ui w))); now apply IH.
  - now apply IH.
  - cbn [ui analysisResult] in Hres. injection Hres as <-.
    now apply (simulateAnalysis_resolve_sound r1 r2).
  - now apply IH.
Qed.

(** X5: whenever the results section is rendered in a reachable world,
    the tumor verdict is shown in the [detected] style and the negative
    verdict in the [normal] style, the confidence line carries a
    percentage between 80.00 and 100.00, and the two buttons are there. *)
Theorem X5_results_section_sound (w : World) (sec : ResultsSection) :
  reachable w -> resultsSection (ui w) = Some sec ->
  (verdictText sec = "Tumor Detected" /\ verdictStyle sec = "detected" \/
   verdictText sec = "No Tumor Detected" /\ verdictStyle sec = "normal") /\
  (exists c n, confidenceText sec = "Confidence: " ++ c /\
               percent_hundredths c = Some n /\ 8000 <= n <= 10000) /\
  List.map label (buttons sec) = ["Preview Result"; "Download PDF"].
Proof.
  intros Hw Hsec. unfold resultsSection in Hsec.
  destruct (showResults (ui w)) eqn:Hshow; [|discriminate].
  destruct (analysisResult (ui w)) as [res|] eqn:Hres; [|discriminate].
  cbn [mbind option_bind] in Hsec. injection Hsec as <-.
  cbn [verdictText verdictStyle confidenceText buttons].
  destruct (reachable_resultSound w Hw res Hres) as ([Ht Hf] & n & Hn & Hc).
  split; [|split].
  - destruct (detected res).
    + left. split; [now apply Ht|reflexivity].
    + right. split; [now apply Hf|reflexivity].
  - exists (confidence res), n. split; [reflexivity|]. rewrite Hc.
    split; [now apply percent_hundredths_point2|exact Hn].
  - reflexivity.
Qed.

Lemma X5_results_section_sound_witness :
  exists sec, resultsSection (ui resultsWorld) = Some sec /\
    (verdictText sec = "Tumor Detected" /\ verdictStyle sec = "detected" \/
     verdictText sec = "No Tumor Detected" /\ verdictStyle sec = "normal") /\
    (exists c n, confidenceText sec = "Confidence: " ++ c /\
                 percent_hundredths c = Some n /\ 8000 <= n <= 10000) /\
    List.map label (buttons sec) = ["Preview Result"; "Download PDF"].
Proof.
  eexists. split; [vm_compute; reflexivity|].
  apply (X5_results_section_sound resultsWorld); [|vm_compute; reflexivity].
  apply (reachable_steps [Submit; TimerFires 0.75 0.25] filledWorld);
    [apply filledWorld_reachable | vm_compute; reflexivity].
Defined.

(** ** The scan and its preview *)

Lemma formInputs_not_mriFile (e : Target) :
  (name e, type e) ∈ formInputs -> name e <> "mriFile".
Proof.
  unfold formInputs. intros Hin Heq. destruct e as [n v t c]. cbn [name type] in *. subst n.
  repeat (apply elem_of_cons in Hin as [Hin | Hin]); try discriminate.
  now apply elem_of_nil in Hin.
Qed.

(** X6: in every reachable world a preview is on the page only when a
    file is attached, and its URL is one of the object URLs created so
    far. *)
Theorem X6_preview_backed (w : World) : reachable w -> previewBacked w.
Proof.
  induction 1 as [|ev w w' Hw IH Hstep]; [intros url; discriminate|].
  apply step_cases in Hstep
    as [(e & -> & Hin & ->) | [(files & -> & Hfr & ->) | [(-> & ->) | [(l & -> & ->)
       | [(r1 & r2 & due & rest & res & -> & Ht & H1 & H2 & Hres & ->)
       | (d & -> & Hd & ->)]]]]]; unfold previewBacked.
  - rewrite run_handleInputChange. cbn [ui mriPreview formData objectURLs].
    intros url Hurl. rewrite lookup_insert_ne by now apply formInputs_not_mriFile.
    now apply IH.
  - destruct files as [|file files]; [now rewrite run_handleFileChange_none|].
    rewrite run_handleFileChange_file.
    destruct (String.prefix "image/" (file_type file));
      cbn [ui mriPreview formData objectURLs]; intros url Hurl.
    + injection Hurl as <-. split; [exists file; apply lookup_insert_eq|].
      exists (objectURLs w). split; [lia|reflexivity].
    + split; [exists file; apply lookup_insert_eq|]. now apply IH.
  - rewrite run_handleSubmit.
    destruct (requiredMissing (formData (ui w))); [exact IH|].
    destruct (mriMissing (formData (ui w))); exact IH.
  - exact IH.
  - exact IH.
  - exact IH.
Qed.

(** X7: selecting an image and then a file that is not an image attaches
    the second file but keeps the preview of the first: the card shows the
    image of one file beside the name of the other. *)
Theorem X7_stale_preview (w : World) (a b : File) :
  fileInputRendered (ui w) = true -> isImage a = true -> isImage b = false ->
  let w' := run (handleFileChange [b]) (run (handleFileChange [a]) w) in
  formData (ui w') !! "mriFile" = Some (VFile b) /\
  mriCard (ui w') =
    Some {| previewImage := Some ("blob:" ++ decimal (Z.of_nat (objectURLs w)));
            cardText := ["Click to replace MRI image"];
            cardFileName := Some (file_name b) |}.
Proof.
  unfold fileInputRendered, isImage. intros Hflag Ha Hb. cbn zeta.
  rewrite !run_handleFileChange_file, Ha, Hb.
  cbn [ui formData mriPreview objectURLs]. unfold mriCard.
  cbn [formData mriPreview].
  rewrite lookup_insert_eq.
  rewrite !lookup_insert_ne by discriminate. rewrite Hflag.
  split; [reflexivity|]. reflexivity.
Qed.

Lemma X6_preview_backed_witness :
  previewBacked (run (handleFileChange [ {| file_name := "scan.png"; file_type := "image/png" |} ])
                   flaggedWorld).
Proof.
  apply X6_preview_backed.
  apply (reachable_steps
           [checkboxChange "hasMRI" true;
            FileChange [ {| file_name := "scan.png"; file_type := "image/png" |} ]]
           filledWorld); [apply filledWorld_reachable | vm_compute; reflexivity].
Defined.

Lemma X7_stale_preview_witness :
  let a := {| file_name := "scan.png"; file_type := "image/png" |} in
  let b := {| file_name := "report.pdf"; file_type := "application/pdf" |} in
  let w' := run (handleFileChange [b]) (run (handleFileChange [a]) flaggedWorld) in
  formData (ui w') !! "mriFile" = Some (VFile b) /\
  mriCard (ui w') =
    Some {| previewImage := Some ("blob:" ++ decimal (Z.of_nat (objectURLs flaggedWorld)));
            cardText := ["Click to replace MRI image"];
            cardFileName := Some "report.pdf" |}.
Proof.
  apply (X7_stale_preview flaggedWorld
           {| file_name := "scan.png"; file_type := "image/png" |}
           {| file_name := "report.pdf"; file_type := "application/pdf" |});
    vm_compute; reflexivity.
Defined.

(** X8: once any file has been selected, whatever its type, a form with
    the three required fields filled is accepted: the MRI guard only asks
    for a file to be attached. *)
Theorem X8_any_file_satisfies_the_guard
    (w : World) (f l e : string) (file : File) (files : list File) :
  formData (ui w) !! "firstName" = Some (VStr f) ->
  formData (ui w) !! "lastName" = Some (VStr l) ->
  formData (ui w) !! "email" = Some (VStr e) ->
  f <> "" -> l <> "" -> e <> "" ->
  let w1 := run (handleFileChange (file :: files)) w in
  analysisStarted w1 (run handleSubmit w1).
Proof.
  intros Hf Hl He Hfn Hln Hen. cbn zeta.
  destruct (handleSubmit_cases (run (handleFileChange (file :: files)) w))
    as [[Hm _] | [(_ & Hq & _) | (_ & _ & Hr)]]; [exfalso | exfalso | exact Hr].
  - revert Hm. unfold requiredMissing. 
    destruct (run_handleFileChange_some file files w) as (-> & _).
    rewrite !lookup_insert_ne by discriminate. rewrite Hf, Hl, He. cbn [truthy].
    destruct (String.eqb_spec f ""), (String.eqb_spec l ""), (String.eqb_spec e "");
      cbn; congruence.
  - revert Hq. unfold mriMissing.
    destruct (run_handleFileChange_some file files w) as (-> & _).
    rewrite lookup_insert_eq. cbn [truthy negb]. rewrite andb_false_r. discriminate.
Qed.

Lemma X8_any_file_satisfies_the_guard_witness :
  let w1 := run (handleFileChange [ {| file_name := "notes.txt"; file_type := "text/plain" |} ])
              flaggedWorld in
  analysisStarted w1 (run handleSubmit w1).
Proof.
  apply (X8_any_file_satisfies_the_guard flaggedWorld "Ada" "Lovelace" "ada@example.org");
    try reflexivity; discriminate.
Defined.

(** ** How changes compose *)

(** X9: changes of two different inputs commute, and of two changes of
    the same input the later one wins. *)
Theorem X9_changes_compose (e1 e2 : Target) (w : World) :
  (name e1 <> name e2 ->
   run (handleInputChange e2) (run (handleInputChange e1) w) =
   run (handleInputChange e1) (run (handleInputChange e2) w)) /\
  (name e1 = name e2 ->
   run (handleInputChange e2) (run (handleInputChange e1) w) =
   run (handleInputChange e2) w).
Proof.
  rewrite !run_handleInputChange. cbn [ui formData mriPreview isAnalyzing showResults
    analysisResult now timers alerts objectURLs].
  split; intros Hn.
  - f_equal. f_equal. apply insert_insert_ne. congruence.
  - f_equal. f_equal. rewrite Hn. apply insert_insert_eq.
Qed.

(** X10: [handleSubmit] reads five properties of the form and no other:
    a call of [handleInputChange] for an input of any other name (age,
    phone and symptoms on the page) commutes with a call of
    [handleSubmit], so the handler takes the same branch whatever these
    fields hold.  This is about the handler once it is called; whether the
    browser dispatches the submit event is not its concern. *)
Theorem X10_submit_ignores_other_fields (e : Target) (w : World) :
  name e <> "firstName" -> name e <> "lastName" -> name e <> "email" ->
  name e <> "hasMRI" -> name e <> "mriFile" ->
  run handleSubmit (run (handleInputChange e) w) =
  run (handleInputChange e) (run handleSubmit w).
Proof.
  intros H1 H2 H3 H4 H5. rewrite (run_handleSubmit w), run_handleSubmit.
  rewrite run_handleInputChange. cbn [ui formData].
  unfold requiredMissing, mriMissing. rewrite !lookup_insert_ne by assumption.
  destruct (negb (truthy (formData (ui w) !! "firstName"))
            || negb (truthy (formData (ui w) !! "lastName"))
            || negb (truthy (formData (ui w) !! "email"))); [reflexivity|].
  destruct (truthy (formData (ui w) !! "hasMRI")
            && negb (truthy (formData (ui w) !! "mriFile"))); reflexivity.
Qed.

Lemma X10_submit_ignores_other_fields_witness :
  let e := {| name := "phone"; value := "n/a"; type := "text"; checked := false |} in
  run handleSubmit (run (handleInputChange e) filledWorld) =
  run (handleInputChange e) (run handleSubmit filledWorld).
Proof.
  apply (X10_submit_ignores_other_fields
           {| name := "phone"; value := "n/a"; type := "text"; checked := false |}
           filledWorld); discriminate.
Defined.

(** ** Many calls of the handler, many resolutions *)

(** X11: [handleSubmit] has no guard of its own against being called
    again: [n] calls in a row on a form that passes both of its guards
    queue [n] timeouts, all due 3000 ms from now, show no dialog and keep
    the form and the previous result. *)
Theorem X11_submissions_queue_up (n : nat) (w : World) :
  requiredMissing (formData (ui w)) = false ->
  mriMissing (formData (ui w)) = false ->
  let w' := Nat.iter n (run handleSubmit) w in
  timers w' = (timers w ++ List.repeat (now w + 3000) n)%list /\
  formData (ui w') = formData (ui w) /\
  analysisResult (ui w') = analysisResult (ui w) /\
  alerts w' = alerts w /\ now w' = now w.
Proof.
  intros Hreq Hmri. cbn zeta.
  induction n as [|n (IHt & IHf & IHr & IHa & IHn)].
  - change (Nat.iter 0 (run handleSubmit) w) with w.
    cbn [List.repeat]. rewrite app_nil_r. auto.
  - change (Nat.iter (S n) (run handleSubmit) w)
      with (run handleSubmit (Nat.iter n (run handleSubmit) w)).
    set (wn := Nat.iter n (run handleSubmit) w) in *.
    destruct (handleSubmit_cases wn) as [[Hm _] | [(_ & Hq & _) | (_ & _ & Hr)]];
      [rewrite IHf in Hm; congruence | rewrite IHf in Hq; congruence |].
    destruct Hr as (_ & _ & Hfd & _ & Hres & Ht & Ha & Hn & _).
    rewrite Ht, IHt, IHn.
    change (List.repeat (now w + 3000) (S n))
      with (now w + 3000 :: List.repeat (now w + 3000) n).
    rewrite repeat_cons, <- app_assoc.
    repeat split; congruence.
Qed.

Lemma X11_submissions_queue_up_witness :
  let w' := Nat.iter 5 (run handleSubmit) filledWorld in
  timers w' = (timers filledWorld ++ List.repeat (now filledWorld + 3000) 5)%list /\
  formData (ui w') = formData (ui filledWorld) /\
  analysisResult (ui w') = analysisResult (ui filledWorld) /\
  alerts w' = alerts filledWorld /\ now w' = now filledWorld.
Proof. apply (X11_submissions_queue_up 5 filledWorld); reflexivity. Defined.

(** X12: when any number of pending timeouts run one after the other,
    the result on the page is the one the last of them resolved to, the
    results are shown and [isAnalyzing] is cleared, even if timeouts
    remain pending. *)
Theorem X12_last_resolution_wins
    (draws : list (float * float)) (d : float * float) (w w' : World) :
  steps (fire (draws ++ [d])) w = Some w' ->
  analysisResult (ui w') = simulateAnalysis_resolve d.1 d.2 /\
  showResults (ui w') = true /\ isAnalyzing (ui w') = false /\
  timers w' = drop (S (length draws)) (timers w).
Proof.
  unfold fire. rewrite map_app, steps_app. fold (fire draws).
  destruct (steps (fire draws) w) as [w1|] eqn:H1; [|discriminate].
  cbn [mbind option_bind List.map steps].
  destruct (step (TimerFires d.1 d.2) w1) as [w2|] eqn:H2; [|discriminate].
  cbn [mbind option_bind]. intros [= <-].
  apply steps_fire_timers in H1 as (Ht & _).
  apply step_TimerFires in H2 as (due & rest & res & Htw & _ & _ & Hres & ->).
  cbn [ui analysisResult showResults isAnalyzing timers].
  split; [now rewrite Hres|]. split; [reflexivity|]. split; [reflexivity|].
  rewrite Ht in Htw.
  replace (S (length draws)) with (length draws + 1)%nat by lia.
  rewrite <- drop_drop, Htw. reflexivity.
Qed.

Lemma X12_last_resolution_wins_witness :
  let w' := default initialWorld
              (steps (fire ([(0.75, 0.25)] ++ [(0.25, 0.75)]))%float secondWorld) in
  analysisResult (ui w') = simulateAnalysis_resolve 0.25 0.75 /\
  showResults (ui w') = true /\ isAnalyzing (ui w') = false /\
  timers w' = drop 2 (timers secondWorld).
Proof.
  apply (X12_last_resolution_wins [(0.75, 0.25)%float] (0.25, 0.75)%float secondWorld).
  vm_compute. reflexivity.
Defined.

(** ** The threshold of the verdict *)

(** For a draw, exceeding one half is the negation of not exceeding it:
    no draw is unordered with one half. *)
Lemma draw_gt_half (r : float) :
  Math_random_range r = true -> (0.5 <? r)%float = negb (r <=? 0.5)%float.
Proof.
  intros Hr. rewrite ltb_spec, leb_spec.
  change (Prim2SF 0.5) with (S754_finite false 4503599627370496 (-53)).
  destruct (Math_random_range_SF r Hr) as [[s ->] | (m & e & -> & He & Hm)];
    [reflexivity|].
  unfold SFltb, SFleb, SFcompare. rewrite (Z.compare_antisym e (-53)).
  destruct (Z.compare e (-53)); cbn [CompOpp]; try reflexivity.
  destruct (PosDef.Pos.compare_cont Eq 4503599627370496 m) eqn:H1;
    destruct (PosDef.Pos.compare_cont Eq m 4503599627370496) eqn:H2;
    try reflexivity; exfalso.
  - apply Pos.compare_eq_iff in H1. apply Pos.compare_gt_iff in H2.
    rewrite <- H1 in H2. now apply Pos.lt_irrefl in H2.
  - apply Pos.compare_lt_iff in H1. apply Pos.compare_eq_iff in H2.
    rewrite H2 in H1. now apply Pos.lt_irrefl in H1.
  - apply Pos.compare_lt_iff in H1. apply Pos.compare_lt_iff in H2.
    apply (Pos.lt_irrefl m). now apply (Pos.lt_trans _ 4503599627370496).
  - apply Pos.compare_gt_iff in H1. apply Pos.compare_gt_iff in H2.
    apply (Pos.lt_irrefl m). now apply (Pos.lt_trans _ 4503599627370496).
Qed.

(** X13: the verdict of a draw [r] is the negative one exactly when
    [r <= 0.5] and the tumor one otherwise; a draw of exactly one half
    gives the negative verdict. *)
Theorem X13_verdict_threshold (r1 r2 : float) (res : AnalysisResult) :
  Math_random_range r1 = true ->
  simulateAnalysis_resolve r1 r2 = Some res ->
  (status res = "No Tumor Detected" <-> (r1 <=? 0.5)%float = true) /\
  (status res = "Tumor Detected" <-> (r1 <=? 0.5)%float = false).
Proof.
  intros H1 Hres. apply simulateAnalysis_resolve_inv in Hres as (-> & _ & _).
  unfold detected_of. rewrite (draw_gt_half r1 H1).
  destruct (r1 <=? 0.5)%float; cbn [negb]; split; split; congruence.
Qed.

Lemma X13_verdict_threshold_witness :
  Math_random_range 0.5 = true /\
  exists res, simulateAnalysis_resolve 0.5 0.25 = Some res /\
    (status res = "No Tumor Detected" <-> (0.5 <=? 0.5)%float = true) /\
    (status res = "Tumor Detected" <-> (0.5 <=? 0.5)%float = false).
Proof.
  split; [reflexivity|]. eexists. split; [vm_compute; reflexivity|].
  apply (X13_verdict_threshold 0.5 0.25); [reflexivity | vm_compute; reflexivity].
Defined.
